(** * KGHS alumni backend: a shallow embedding of the request handlers

    The server is a single Express application.  Every route is a chain
    of middlewares ending in an asynchronous handler that reads or writes
    Mongoose collections, possibly calls an external adapter (the payment
    gateway, the mail transport, the upload sink) and answers with JSON.

    The embedding keeps that shape:
    - documents are records, collections are lists in insertion order;
    - a handler is a computation in a state-and-exception monad over a
      [World] (the store, the server log, the trace of adapter calls and
      the script of store faults still to happen);
    - a rejected promise or a JavaScript exception is [Throw]; what a
      [try]/[catch] block does is [try_catch];
    - everything the program does not decide itself (hashing, the gateway,
      the mail transport, the clock, identifiers drawn by the driver) is a
      field of the environment record [Env].

    Numbers: graduation years and gateway amounts are integers ([Z]);
    donation amounts are rationals ([Q]), so [amount * 100] and
    [amount / 100] are the exact products and quotients (IEEE rounding of
    doubles is not modelled).

    Requests are typed: a body field or query parameter a handler reads
    is a string, a boolean or a number as the front end sends it, under
    [option] where the handler's behaviour on a missing field matters;
    fields of another JSON type are outside the model.  Strings are byte
    strings and letter case is the ASCII one. *)

From Stdlib Require Import List String Ascii Bool ZArith QArith Qround Lia.
From Stdlib Require Import DecimalString Permutation Sorted Lqa.
Import ListNotations.

Local Open Scope string_scope.
Local Open Scope list_scope.
Local Open Scope Z_scope.

Set Implicit Arguments.

(** ** JavaScript values that cross the program's interfaces *)

#[local] Unset Elimination Schemes.
Inductive JsValue : Type :=
| JUndefined
| JNull
| JBool (b : bool)
| JNum (q : Q)
| JStr (s : string)
| JArr (items : list JsValue)
| JObj (fields : list (string * JsValue)).
#[local] Set Elimination Schemes.

Definition JsObject := list (string * JsValue).

(** Property read [o.k] on a plain object; a missing key is [undefined]. *)
Fixpoint get_field (k : string) (o : JsObject) : JsValue :=
  match o with
  | [] => JUndefined
  | (k', v) :: rest => if String.eqb k k' then v else get_field k rest
  end.

Fixpoint has_field (k : string) (o : JsObject) : bool :=
  match o with
  | [] => false
  | (k', _) :: rest => String.eqb k k' || has_field k rest
  end.

(** [delete o.k] for every key of [ks]: what [.select('-a -b')] does to
    the serialised document. *)
Definition drop_fields (ks : list string) (o : JsObject) : JsObject :=
  filter (fun kv => negb (existsb (String.eqb (fst kv)) ks)) o.

(** JavaScript truthiness. *)
Definition truthy (v : JsValue) : bool :=
  match v with
  | JUndefined | JNull => false
  | JBool b => b
  | JNum q => negb (Qeq_bool q 0)
  | JStr s => negb (String.eqb s "")
  | JArr _ | JObj _ => true
  end.

Definition str_truthy (s : string) : bool := negb (String.eqb s "").

(** [a || b] on values. *)
Definition js_or (a b : JsValue) : JsValue := if truthy a then a else b.

Definition opt_str (o : option string) : JsValue :=
  match o with Some s => JStr s | None => JUndefined end.

Definition opt_int (o : option Z) : JsValue :=
  match o with Some z => JNum (inject_Z z) | None => JUndefined end.

(** ** Errors *)

(** The part of a thrown value the program looks at: [err.message] and,
    for gateway errors, [err.response.data] with its [message]. *)
Record RespData := mkRespData { rd_message : option string }.

Record JsError := mkJsError {
  err_name : string;
  err_message : string;
  err_response_data : option RespData
}.

Definition TypeError (m : string) : JsError := mkJsError "TypeError" m None.
Definition CastError (m : string) : JsError := mkJsError "CastError" m None.

(** What [console.error] was given. *)
Inductive LogArg : Type :=
| LogStr (s : string)
| LogErr (e : JsError)
| LogData (d : RespData).

Definition LogEntry := list LogArg.

(** ** Documents *)

(** Identifiers are the hexadecimal strings of ObjectIds. *)
Definition ObjectId := string.

Definition is_hex (c : ascii) : bool :=
  (((48 <=? nat_of_ascii c) && (nat_of_ascii c <=? 57))
   || ((97 <=? nat_of_ascii c) && (nat_of_ascii c <=? 102))
   || ((65 <=? nat_of_ascii c) && (nat_of_ascii c <=? 70)))%nat.

Fixpoint all_hex (s : string) : bool :=
  match s with
  | EmptyString => true
  | String c rest => is_hex c && all_hex rest
  end.

(** The strings every version of the driver reads as an ObjectId: 24
    hexadecimal digits.  (Drivers before bson 6 also take any string of
    12 characters; the model treats those like every other string that
    is not 24 hexadecimal digits, and no statement below relies on
    them.) *)
Definition well_formed_oid (s : string) : bool :=
  (String.length s =? 24)%nat && all_hex s.

Record User := mkUser {
  user_id : ObjectId;
  user_email : string;
  user_password : string;
  user_name : option string;
  user_graduationYear : option Z;
  user_bio : option string;
  user_location : option string;
  user_profilePic : option string;
  user_role : string;
  user_isApproved : bool
}.

Record News := mkNews {
  news_id : ObjectId;
  news_title : option string;
  news_content : option string;
  news_author : option ObjectId;
  news_date : Z
}.

Record Reply := mkReply {
  reply_id : ObjectId;
  reply_content : option string;
  reply_author : option ObjectId;
  reply_date : Z
}.

Record ForumThread := mkForumThread {
  thread_id : ObjectId;
  thread_title : option string;
  thread_content : option string;
  thread_author : option ObjectId;
  thread_date : Z;
  thread_replies : list Reply
}.

Record Donation := mkDonation {
  donation_id : ObjectId;
  donation_amount : Q;
  donation_donor : option ObjectId;
  donation_date : Z
}.

Record BoardMinute := mkBoardMinute {
  minute_id : ObjectId;
  minute_title : string;
  minute_fileUrl : string;
  minute_date : Z
}.

(** The collections the modelled routes touch.  [inserted] counts the
    documents created so far; the driver draws the next identifier from
    it. *)
Record Store := mkStore {
  users : list User;
  news : list News;
  threads : list ForumThread;
  donations : list Donation;
  boardMinutes : list BoardMinute;
  inserted : nat
}.

(** ** External adapters *)

Record InitArgs := mkInitArgs {
  init_amount : Z;
  init_email : JsValue;
  init_currency : string;
  init_reference : string;
  init_callback_url : string;
  init_metadata : JsObject
}.

(** [response.data] of the gateway's verify operation. *)
Record VerifyData := mkVerifyData {
  verify_status : string;
  verify_amount : Z
}.

Record MailOptions := mkMailOptions {
  mail_from : string;
  mail_to : string;
  mail_subject : string;
  mail_html : string
}.

Inductive ExtCall : Type :=
| CallInitialize (args : InitArgs)
| CallVerify (reference : string)
| CallSendMail (opts : MailOptions)
| CallUpload (fileName : string).

(** A session token, symbolically: the signed payload, the secret it was
    signed with and its validity window in seconds. *)
Record Token := mkToken {
  tok_payload : JsObject;
  tok_secret : string;
  tok_iat : Z;
  tok_exp : Z
}.

(** The [Authorization] header after [replace('Bearer ', '')]: absent, a
    string that is no token of ours, or a signed token. *)
Inductive AuthHeader : Type :=
| NoHeader
| RawToken (s : string)
| SignedToken (t : Token).

Record Env := mkEnv {
  JWT_SECRET : string;
  EMAIL_USER : string;
  (** [Date.now()], in milliseconds *)
  now_ms : Z;
  (** [new Date().getFullYear()] *)
  currentYear : Z;
  (** [Math.random().toString(36).substring(7)] *)
  random_suffix : string;
  (** the identifier the driver gives the n-th created document *)
  new_oid : nat -> ObjectId;
  bcrypt_genSalt : string;
  bcrypt_hash : string -> string -> string;
  bcrypt_compare : string -> string -> bool;
  paystack_initialize : InitArgs -> JsError + string;
  paystack_verify : string -> JsError + VerifyData;
  sendMail : MailOptions -> option JsError;
  (** the upload sink: the stored file's URL *)
  cloudinary_upload : string -> JsError + string;
  (** the store's regular-expression engine, option [i], on patterns that
      use more than literals and the dot; [None] is a pattern it refuses *)
  pcre_compile_i : string -> option (string -> bool);
  (** [Number(s)] on strings that are not plain decimal numerals; [None]
      is NaN *)
  js_Number : string -> option Z
}.

(** ** The world a request runs in *)

Record World := mkWorld {
  store : Store;
  log : list LogEntry;
  calls : list ExtCall;
  (** outcome of the store operations to come, first one first: [Some e]
      makes the operation reject with [e]; an exhausted script means the
      store answers *)
  faults : list (option JsError)
}.

Inductive Outcome (A : Type) : Type :=
| Ok (a : A)
| Throw (e : JsError).

Arguments Ok {A} a.
Arguments Throw {A} e.

Definition M (A : Type) : Type := World -> Outcome A * World.

Definition ret {A} (a : A) : M A := fun w => (Ok a, w).

Definition bind {A B} (c : M A) (k : A -> M B) : M B :=
  fun w => match c w with
           | (Ok a, w') => k a w'
           | (Throw e, w') => (Throw e, w')
           end.

Definition throw {A} (e : JsError) : M A := fun w => (Throw e, w).

(** [try { body } catch (err) { handler }]: the effects of [body] up to
    the throw stay. *)
Definition try_catch {A} (body : M A) (handler : JsError -> M A) : M A :=
  fun w => match body w with
           | (Ok a, w') => (Ok a, w')
           | (Throw e, w') => handler e w'
           end.

Declare Scope js_scope.
Delimit Scope js_scope with js.
Notation "x <- c ;; k" := (bind c (fun x => k))
  (at level 61, c at next level, right associativity) : js_scope.
Notation "c ;;; k" := (bind c (fun _ => k))
  (at level 61, right associativity) : js_scope.
Local Open Scope js_scope.

Definition console_error (entry : LogEntry) : M unit :=
  fun w => (Ok tt, mkWorld (store w) (log w ++ [entry]) (calls w) (faults w)).

Definition record_call (c : ExtCall) : M unit :=
  fun w => (Ok tt, mkWorld (store w) (log w) (calls w ++ [c]) (faults w)).

(** One awaited store operation. *)
Definition store_op {A} (f : Store -> Outcome A * Store) : M A :=
  fun w =>
    match faults w with
    | Some e :: rest => (Throw e, mkWorld (store w) (log w) (calls w) rest)
    | script =>
        let (r, s') := f (store w) in
        (r, mkWorld s' (log w) (calls w) (tl script))
    end.

Definition store_read {A} (f : Store -> A) : M A :=
  store_op (fun s => (Ok (f s), s)).

Definition lift_result {A} (r : JsError + A) : M A :=
  match r with inl e => throw e | inr a => ret a end.

(** ** HTTP responses *)

Record Response := mkResponse {
  status : Z;
  body : JsValue
}.

(** [res.json(v)] and [res.status(n).json(v)]. *)
Definition res_json (v : JsValue) : Response := mkResponse 200 v.
Definition res_status_json (n : Z) (v : JsValue) : Response := mkResponse n v.

Definition msg (m : string) : JsValue := JObj [("msg", JStr m)].

(** ** Serialised documents *)

Definition opt_field (k : string) (v : JsValue) : JsObject :=
  match v with JUndefined => [] | _ => [(k, v)] end.

(** [JSON.stringify] of a user document: schema paths that were never set
    are absent. *)
Definition user_json (u : User) : JsObject :=
  [("_id", JStr (user_id u));
   ("email", JStr (user_email u));
   ("password", JStr (user_password u))]
  ++ opt_field "name" (opt_str (user_name u))
  ++ opt_field "graduationYear" (opt_int (user_graduationYear u))
  ++ opt_field "bio" (opt_str (user_bio u))
  ++ opt_field "location" (opt_str (user_location u))
  ++ opt_field "profilePic" (opt_str (user_profilePic u))
  ++ [("role", JStr (user_role u));
      ("isApproved", JBool (user_isApproved u))].

Definition opt_oid (o : option ObjectId) : JsValue :=
  match o with Some i => JStr i | None => JUndefined end.

Definition date_json (d : Z) : JsValue := JNum (inject_Z d).

Definition news_json (n : News) : JsObject :=
  [("_id", JStr (news_id n))]
  ++ opt_field "title" (opt_str (news_title n))
  ++ opt_field "content" (opt_str (news_content n))
  ++ opt_field "author" (opt_oid (news_author n))
  ++ [("date", date_json (news_date n))].

Definition reply_json (r : Reply) : JsObject :=
  [("_id", JStr (reply_id r))]
  ++ opt_field "content" (opt_str (reply_content r))
  ++ opt_field "author" (opt_oid (reply_author r))
  ++ [("date", date_json (reply_date r))].

Definition thread_json (t : ForumThread) : JsObject :=
  [("_id", JStr (thread_id t))]
  ++ opt_field "title" (opt_str (thread_title t))
  ++ opt_field "content" (opt_str (thread_content t))
  ++ opt_field "author" (opt_oid (thread_author t))
  ++ [("date", date_json (thread_date t));
      ("replies", JArr (map (fun r => JObj (reply_json r)) (thread_replies t)))].

Definition minute_json (m : BoardMinute) : JsObject :=
  [("_id", JStr (minute_id m));
   ("title", JStr (minute_title m));
   ("fileUrl", JStr (minute_fileUrl m));
   ("date", date_json (minute_date m))].

(** ** Queries *)

Definition findOne_by_email (email : string) (s : Store) : option User :=
  find (fun u => String.eqb (user_email u) email) (users s).

(** Lookup by [_id].  The identifiers in a collection are ObjectIds, so
    a string that is not a well-formed one names no document. *)
Definition find_user (id : ObjectId) (s : Store) : option User :=
  if well_formed_oid id
  then find (fun u => String.eqb (user_id u) id) (users s)
  else None.

Definition find_thread (id : ObjectId) (s : Store) : option ForumThread :=
  if well_formed_oid id
  then find (fun t => String.eqb (thread_id t) id) (threads s)
  else None.

(** Mongoose casts an identifier taken from the URL ([req.params.id])
    before it sends the query: a string that is not a well-formed
    ObjectId is a cast error and nothing is asked of the store. *)
Definition cast_path_id (id : string) : JsError + ObjectId :=
  if well_formed_oid id then inr id
  else inl (CastError "Cast to ObjectId failed").

(** The cast of [req.user.id], the identifier login signed into the
    session token: a string is looked up, [undefined] and [null] match
    nothing, anything else is a cast error. *)
Definition cast_oid (v : JsValue) : JsError + option ObjectId :=
  match v with
  | JStr s => inr (Some s)
  | JUndefined | JNull => inr None
  | _ => inl (CastError "Cast to ObjectId failed")
  end.

(** The cast happens before the query is sent. *)
Definition User_findById (v : JsValue) : M (option User) :=
  match cast_oid v with
  | inl e => throw e
  | inr None => store_read (fun _ => None)
  | inr (Some id) => store_read (find_user id)
  end.

Definition User_findOne (email : string) : M (option User) :=
  store_read (findOne_by_email email).

Definition fresh_oid (env : Env) (s : Store) : ObjectId :=
  new_oid env (inserted s).

Definition set_users (s : Store) (us : list User) : Store :=
  mkStore us (news s) (threads s) (donations s) (boardMinutes s) (inserted s).

Definition insert_user (u : User) (s : Store) : Store :=
  mkStore (users s ++ [u]) (news s) (threads s) (donations s)
          (boardMinutes s) (S (inserted s)).

Definition insert_news (n : News) (s : Store) : Store :=
  mkStore (users s) (news s ++ [n]) (threads s) (donations s)
          (boardMinutes s) (S (inserted s)).

Definition insert_donation (d : Donation) (s : Store) : Store :=
  mkStore (users s) (news s) (threads s) (donations s ++ [d])
          (boardMinutes s) (S (inserted s)).

Definition insert_minute (m : BoardMinute) (s : Store) : Store :=
  mkStore (users s) (news s) (threads s) (donations s)
          (boardMinutes s ++ [m]) (S (inserted s)).

Definition replace_thread (t : ForumThread) (s : Store) : Store :=
  mkStore (users s) (news s)
          (map (fun t' => if String.eqb (thread_id t') (thread_id t)
                          then t else t') (threads s))
          (donations s) (boardMinutes s) (S (inserted s)).

(** ** Session tokens *)

Definition seconds (ms : Z) : Z := ms / 1000.

(** [jwt.sign(payload, secret, { expiresIn: '7d' })]. *)
Definition jwt_sign (env : Env) (payload : JsObject) (secret : string) : Token :=
  mkToken payload secret (seconds (now_ms env))
          (seconds (now_ms env) + 7 * 24 * 60 * 60).

(** [jwt.verify(token, secret)]: the decoded payload with its [iat] and
    [exp] claims, or an exception. *)
Definition jwt_verify (env : Env) (h : AuthHeader) (secret : string)
  : JsError + JsObject :=
  match h with
  | NoHeader => inl (mkJsError "JsonWebTokenError" "jwt must be provided" None)
  | RawToken _ => inl (mkJsError "JsonWebTokenError" "jwt malformed" None)
  | SignedToken t =>
      if negb (String.eqb (tok_secret t) secret)
      then inl (mkJsError "JsonWebTokenError" "invalid signature" None)
      else if tok_exp t <=? seconds (now_ms env)
      then inl (mkJsError "TokenExpiredError" "jwt expired" None)
      else inr (tok_payload t
                ++ [("iat", JNum (inject_Z (tok_iat t)));
                    ("exp", JNum (inject_Z (tok_exp t)))])
  end.

(** [!token] *)
Definition no_token (h : AuthHeader) : bool :=
  match h with
  | NoHeader => true
  | RawToken s => negb (str_truthy s)
  | SignedToken _ => false
  end.

Section Handlers.

Variable env : Env.

(** ** Middlewares *)

(** [authMiddleware]: [next] is the rest of the route, called with the
    decoded payload as [req.user]. *)
Definition authMiddleware (h : AuthHeader) (next : JsObject -> M Response)
  : M Response :=
  if no_token h then ret (res_status_json 401 (msg "No token"))
  else match jwt_verify env h (JWT_SECRET env) with
       | inr decoded => next decoded
       | inl _ => ret (res_status_json 401 (msg "Invalid token"))
       end.

Definition adminMiddleware (req_user : JsObject) (next : M Response)
  : M Response :=
  user <- User_findById (get_field "id" req_user) ;;
  match user with
  | None => ret (res_status_json 403 (msg "Admin access required"))
  | Some u =>
      if negb (String.eqb (user_role u) "admin")
      then ret (res_status_json 403 (msg "Admin access required"))
      else next
  end.

(** ** POST /api/auth/signup *)

Record SignupBody := mkSignupBody {
  signup_email : string;
  signup_password : string;
  signup_name : option string;
  signup_graduationYear : option Z
}.

(** [graduationYear < 1950 || graduationYear > currentYear + 10]; both
    comparisons are false on [undefined]. *)
Definition invalid_year (y : option Z) : bool :=
  match y with
  | None => false
  | Some y => (y <? 1950) || (currentYear env + 10 <? y)
  end.

Definition ValidationError (m : string) : JsError :=
  mkJsError "ValidationError" m None.

(** [user.save()] of a new document: [email] and [password] are
    required (an empty string does not count), and the unique index on
    [email] refuses a second document with the same address. *)
Definition User_save (doc : Store -> User) : M unit :=
  store_op (fun s =>
    let u := doc s in
    if negb (str_truthy (user_email u) && str_truthy (user_password u))
    then (Throw (ValidationError "User validation failed"), s)
    else if existsb (fun v => String.eqb (user_email v) (user_email u)) (users s)
    then (Throw (mkJsError "MongoServerError" "E11000 duplicate key error" None), s)
    else (Ok tt, insert_user u s)).

Definition new_user (b : SignupBody) (hashed : string) (s : Store) : User :=
  mkUser (fresh_oid env s) (signup_email b) hashed (signup_name b)
         (signup_graduationYear b) None None None "alumni" false.

(** The [catch] block most handlers share: log the error, answer 500
    with a fixed message. *)
Definition catch_generic (m : string) (err : JsError) : M Response :=
  console_error [LogErr err] ;;;
  ret (res_status_json 500 (msg m)).

(** The [try] block of the handler. *)
Definition signup_try (b : SignupBody) : M Response :=
  user <- User_findOne (signup_email b) ;;
  match user with
  | Some _ => ret (res_status_json 400 (msg "User already exists"))
  | None =>
      if invalid_year (signup_graduationYear b)
      then ret (res_status_json 400 (msg "Invalid graduation year"))
      else
        let salt := bcrypt_genSalt env in
        let hashedPassword := bcrypt_hash env (signup_password b) salt in
        User_save (fun s => new_user b hashedPassword s) ;;;
        ret (res_json (msg "Signup successful! Your account is pending admin approval. You will receive an email when approved."))
  end.

Definition signup (b : SignupBody) : M Response :=
  try_catch (signup_try b) (catch_generic "Server error").

(** ** POST /api/auth/login *)

Record LoginBody := mkLoginBody {
  login_email : string;
  login_password : string
}.

Definition token_json (t : Token) : JsValue :=
  JObj [("payload", JObj (tok_payload t));
        ("iat", JNum (inject_Z (tok_iat t)));
        ("exp", JNum (inject_Z (tok_exp t)))].

(** The token a successful login hands out for user [u]. *)
Definition login_token (u : User) : Token :=
  jwt_sign env [("id", JStr (user_id u))] (JWT_SECRET env).

Definition invalid_credentials : Response :=
  res_status_json 400 (msg "Invalid credentials").

Definition pending_approval : Response :=
  res_status_json 403
    (msg "Your account is pending approval. Please check your email.").

Definition login_try (b : LoginBody) : M Response :=
  user <- User_findOne (login_email b) ;;
  match user with
  | None => ret invalid_credentials
  | Some u =>
      if negb (user_isApproved u)
      then ret pending_approval
      else
        let isMatch := bcrypt_compare env (login_password b) (user_password u) in
        if negb isMatch
        then ret invalid_credentials
        else
          let token := login_token u in
          ret (res_json
                 (JObj [("token", token_json token);
                        ("user", JObj ([("id", JStr (user_id u));
                                        ("email", JStr (user_email u))]
                                       ++ opt_field "name" (opt_str (user_name u))
                                       ++ [("role", JStr (user_role u))]))]))
  end.

Definition login (b : LoginBody) : M Response :=
  try_catch (login_try b) (catch_generic "Server error").

(** ** Strings *)

Definition is_lower (c : ascii) : bool :=
  ((97 <=? nat_of_ascii c) && (nat_of_ascii c <=? 122))%nat.

Definition is_upper (c : ascii) : bool :=
  ((65 <=? nat_of_ascii c) && (nat_of_ascii c <=? 90))%nat.

(** Case mapping on the ASCII letters; every other byte is left as it
    is. *)
Definition upper_ascii (c : ascii) : ascii :=
  if is_lower c then ascii_of_nat (nat_of_ascii c - 32) else c.

Definition lower_ascii (c : ascii) : ascii :=
  if is_upper c then ascii_of_nat (nat_of_ascii c + 32) else c.

Fixpoint toUpperCase (s : string) : string :=
  match s with
  | EmptyString => EmptyString
  | String c rest => String (upper_ascii c) (toUpperCase rest)
  end.

Fixpoint toLowerCase (s : string) : string :=
  match s with
  | EmptyString => EmptyString
  | String c rest => String (lower_ascii c) (toLowerCase rest)
  end.

Definition nl : string := String (ascii_of_nat 10) EmptyString.
Definition dq : string := String (ascii_of_nat 34) EmptyString.

(** Decimal rendering of an integer, as template interpolation does. *)
Definition show_Z (z : Z) : string := NilZero.string_of_int (Z.to_int z).

(** ** Query casting and matching *)

Definition digit_of (c : ascii) : option Z :=
  if ((48 <=? nat_of_ascii c) && (nat_of_ascii c <=? 57))%nat
  then Some (Z.of_nat (nat_of_ascii c) - 48) else None.

Fixpoint decimal_value (acc : Z) (s : string) : option Z :=
  match s with
  | EmptyString => Some acc
  | String c rest =>
      match digit_of c with
      | Some d => decimal_value (10 * acc + d) rest
      | None => None
      end
  end.

(** The Number cast of a query string: a plain decimal numeral is its
    value; any other spelling is left to [js_Number]. *)
Definition castNumber (s : string) : option Z :=
  match s with
  | EmptyString => js_Number env s
  | _ => match decimal_value 0 s with
         | Some z => Some z
         | None => js_Number env s
         end
  end.

(** The characters with a meaning of their own in a regular expression. *)
Definition regex_meta (c : ascii) : bool :=
  existsb (Ascii.eqb c)
    ["\"; "^"; "$"; "."; "|"; "?"; "*"; "+"; "("; ")"; "["; "]"; "{"; "}"]%char.

Inductive PatItem : Type :=
| PChar (c : ascii)
| PAny.

(** Patterns made of literal characters and dots. *)
Fixpoint compile_simple (p : string) : option (list PatItem) :=
  match p with
  | EmptyString => Some []
  | String c rest =>
      if Ascii.eqb c "." then option_map (cons PAny) (compile_simple rest)
      else if regex_meta c then None
      else option_map (cons (PChar c)) (compile_simple rest)
  end.

(** One pattern item against one character (a byte here), under option
    [i]; the dot matches everything but a line feed. *)
Definition item_matches (it : PatItem) (c : ascii) : bool :=
  match it with
  | PChar a => Ascii.eqb (lower_ascii a) (lower_ascii c)
  | PAny => negb (Ascii.eqb c (ascii_of_nat 10))
  end.

Fixpoint match_here (items : list PatItem) (s : string) : bool :=
  match items, s with
  | [], _ => true
  | _ :: _, EmptyString => false
  | it :: items', String c s' => item_matches it c && match_here items' s'
  end.

(** An unanchored pattern matches if it matches at some offset. *)
Fixpoint search (items : list PatItem) (s : string) : bool :=
  match_here items s ||
  match s with
  | EmptyString => false
  | String _ s' => search items s'
  end.

(** [{ $regex: pattern, $options: 'i' }] as a test on strings; [None] is
    a pattern the engine refuses. *)
Definition regex_i (pattern : string) : option (string -> bool) :=
  match compile_simple pattern with
  | Some items => Some (search items)
  | None => pcre_compile_i env pattern
  end.

(** ** GET /api/directory *)

Record DirectoryQuery := mkDirectoryQuery {
  query_year : option string;
  query_location : option string
}.

(** The filter object the handler builds: [isApproved: true] always, the
    other two keys only for a truthy query parameter. *)
Record UserFilter := mkUserFilter {
  filter_graduationYear : option string;
  filter_location : option string
}.

Definition truthy_param (p : option string) : option string :=
  match p with
  | Some s => if str_truthy s then Some s else None
  | None => None
  end.

Definition directory_filter (q : DirectoryQuery) : UserFilter :=
  mkUserFilter (truthy_param (query_year q)) (truthy_param (query_location q)).

Definition year_matches (y : option Z) (u : User) : bool :=
  match y with
  | None => true
  | Some y => match user_graduationYear u with
              | Some g => g =? y
              | None => false
              end
  end.

Definition location_matches (re : option (string -> bool)) (u : User) : bool :=
  match re with
  | None => true
  | Some test => match user_location u with
                 | Some l => test l
                 | None => false
                 end
  end.

(** The filter's year, cast to the schema's Number. *)
Definition cast_year (f : UserFilter) : Outcome (option Z) :=
  match filter_graduationYear f with
  | None => Ok None
  | Some y => match castNumber y with
              | Some z => Ok (Some z)
              | None => Throw (CastError "Cast to Number failed")
              end
  end.

(** The filter's location pattern, compiled by the store. *)
Definition compile_location (f : UserFilter) : Outcome (option (string -> bool)) :=
  match filter_location f with
  | None => Ok None
  | Some p => match regex_i p with
              | Some test => Ok (Some test)
              | None => Throw (mkJsError "MongoServerError"
                                         "Regular expression is invalid" None)
              end
  end.

Definition directory_selects (y : option Z) (t : option (string -> bool))
           (u : User) : bool :=
  user_isApproved u && year_matches y u && location_matches t u.

(** [User.find(filter)] for the directory's filter: a year that cannot be
    cast rejects before the query is sent. *)
Definition User_find_directory (f : UserFilter) : M (list User) :=
  match cast_year f with
  | Throw e => throw e
  | Ok y =>
      store_op (fun s =>
        match compile_location f with
        | Throw e => (Throw e, s)
        | Ok t => (Ok (filter (directory_selects y t) (users s)), s)
        end)
  end.

Definition directory_record (u : User) : JsValue :=
  JObj (drop_fields ["password"; "isApproved"] (user_json u)).

Definition directory (q : DirectoryQuery) : M Response :=
  let filter := directory_filter q in
  users <- User_find_directory filter ;;
  ret (res_json (JArr (map directory_record users))).

Definition route_directory (h : AuthHeader) (q : DirectoryQuery) : M Response :=
  authMiddleware h (fun _ => directory q).

(** ** POST /api/news *)

(** The keys of the body the News schema has a path for.  The handler
    spreads the body and then sets [author], so the body's own [author]
    is never used. *)
Record NewsBody := mkNewsBody {
  newsbody_title : option string;
  newsbody_content : option string;
  newsbody_author : option string;
  newsbody_date : option Z;
  newsbody_id : option string
}.

(** The cast of an [_id] the body may carry. *)
Definition cast_given_id (i : option string) : JsError + option ObjectId :=
  match i with
  | None => inr None
  | Some s => if well_formed_oid s then inr (Some s)
              else inl (CastError "Cast to ObjectId failed")
  end.

Definition duplicate_key : JsError :=
  mkJsError "MongoServerError" "E11000 duplicate key error" None.

(** [save] of a new document built from a body: the reference and a
    given [_id] are cast first; the document takes the given [_id] or a
    new one, and the collection refuses a given [_id] it already has. *)
Definition save_new {A} (ref : JsValue) (given : option string)
           (taken : ObjectId -> Store -> bool)
           (insert : option ObjectId -> ObjectId -> Store -> A * Store) : M A :=
  match cast_oid ref, cast_given_id given with
  | inl e, _ => throw e
  | _, inl e => throw e
  | inr o, inr None =>
      store_op (fun s => let (a, s') := insert o (fresh_oid env s) s in (Ok a, s'))
  | inr o, inr (Some id) =>
      store_op (fun s =>
        if taken id s then (Throw duplicate_key, s)
        else let (a, s') := insert o id s in (Ok a, s'))
  end.

Definition or_now (d : option Z) : Z :=
  match d with Some d => d | None => now_ms env end.

(** [save] of a document with a reference path: a value that cannot be
    cast to an identifier makes [save] reject before anything is sent to
    the store. *)
Definition save_with_ref {A} (ref : JsValue)
           (insert : option ObjectId -> Store -> A * Store) : M A :=
  match cast_oid ref with
  | inl e => throw e
  | inr o => store_op (fun s => let (a, s') := insert o s in (Ok a, s'))
  end.

Definition post_news (req_user : JsObject) (b : NewsBody) : M Response :=
  newsItem <- save_new (get_field "id" req_user) (newsbody_id b)
                (fun id s => existsb (fun n => String.eqb (news_id n) id) (news s))
                (fun author id s =>
                   let n := mkNews id (newsbody_title b) (newsbody_content b)
                                   author (or_now (newsbody_date b)) in
                   (n, insert_news n s)) ;;
  ret (res_json (JObj (news_json newsItem))).

Definition route_post_news (h : AuthHeader) (b : NewsBody) : M Response :=
  authMiddleware h (fun u => adminMiddleware u (post_news u b)).

(** ** POST /api/forums/:id/reply *)

Definition ForumThread_findById (id : string) : M (option ForumThread) :=
  match cast_path_id id with
  | inl e => throw e
  | inr oid => store_read (find_thread oid)
  end.

Definition push_reply (t : ForumThread) (r : Reply) : ForumThread :=
  mkForumThread (thread_id t) (thread_title t) (thread_content t)
                (thread_author t) (thread_date t) (thread_replies t ++ [r]).

Definition forum_reply (req_user : JsObject) (id : string)
           (content : option string) : M Response :=
  thread <- ForumThread_findById id ;;
  match thread with
  | None =>
      throw (TypeError "Cannot read properties of null (reading 'replies')")
  | Some t =>
      saved <- save_with_ref (get_field "id" req_user)
                 (fun author s =>
                    let t' := push_reply t (mkReply (fresh_oid env s) content
                                                    author (now_ms env)) in
                    (t', replace_thread t' s)) ;;
      ret (res_json (JObj (thread_json saved)))
  end.


(** ** POST /api/donations/create-payment *)

Record PaymentBody := mkPaymentBody {
  pay_amount : option Q;
  pay_currency : option string
}.

Definition Qlt_bool (a b : Q) : bool := negb (Qle_bool b a).

(** [Math.round]: nearest integer, halves upwards; applied here to the
    exact product, where the code rounds the double nearest to it. *)
Definition Math_round (q : Q) : Z := Qfloor (q + (1 # 2)).

(** [err.response?.data?.message || err.message || 'Unknown error'] *)
Definition error_message (err : JsError) : string :=
  match err_response_data err with
  | Some (mkRespData (Some m)) =>
      if str_truthy m then m
      else if str_truthy (err_message err) then err_message err
      else "Unknown error"
  | _ => if str_truthy (err_message err) then err_message err
         else "Unknown error"
  end.

(** [err.response?.data || err.message || err] *)
Definition error_log_arg (err : JsError) : LogArg :=
  match err_response_data err with
  | Some d => LogData d
  | None => if str_truthy (err_message err) then LogStr (err_message err)
            else LogErr err
  end.

(** [err.response?.data || err.message] *)
Definition error_log_arg2 (err : JsError) : LogArg :=
  match err_response_data err with
  | Some d => LogData d
  | None => LogStr (err_message err)
  end.

Definition payment_args (req_user : JsObject) (amount : Q) (currency : string)
  : InitArgs :=
  let validCurrency :=
    if String.eqb (toUpperCase currency) "USD" then "USD" else "NGN" in
  mkInitArgs
    (Math_round (amount * 100))
    (js_or (get_field "email" req_user) (JStr "alumni@kghs.com"))
    validCurrency
    ("kghs-don-" ++ show_Z (now_ms env) ++ "-" ++ random_suffix env)%string
    "http://localhost:5174/donations/success"
    [("userId", get_field "id" req_user); ("currency", JStr validCurrency)].

Definition create_payment_try (req_user : JsObject) (b : PaymentBody)
  : M Response :=
  let currency := match pay_currency b with Some c => c | None => "NGN" end in
  match pay_amount b with
  | None => ret (res_status_json 400 (msg "Invalid amount"))
  | Some amount =>
      if Qeq_bool amount 0 || Qlt_bool amount 1
      then ret (res_status_json 400 (msg "Invalid amount"))
      else
        let args := payment_args req_user amount currency in
        record_call (CallInitialize args) ;;;
        authorization_url <- lift_result (paystack_initialize env args) ;;
        ret (res_json (JObj [("authorization_url", JStr authorization_url)]))
  end.

(** The handler's own [catch] block: the error's message goes to the
    client in [details]. *)
Definition payment_failed (err : JsError) : Response :=
  let errorMessage := error_message err in
  res_status_json 500
    (JObj [("msg", JStr "Payment initialization failed");
           ("details", JStr errorMessage)]).

Definition create_payment_catch (err : JsError) : M Response :=
  console_error [LogStr "Paystack initialization error:"; error_log_arg err] ;;;
  ret (payment_failed err).

Definition create_payment (req_user : JsObject) (b : PaymentBody) : M Response :=
  try_catch (create_payment_try req_user b) create_payment_catch.

Definition route_create_payment (h : AuthHeader) (b : PaymentBody) : M Response :=
  authMiddleware h (fun u => create_payment u b).

(** ** GET /api/donations/verify/:reference *)

Definition new_donation (data : VerifyData) (donor : option ObjectId)
           (s : Store) : Donation :=
  mkDonation (fresh_oid env s) (inject_Z (verify_amount data) / 100)%Q
             donor (now_ms env).

Definition donation_successful : Response :=
  res_json (JObj [("success", JBool true);
                  ("message", JStr "Donation successful!")]).

Definition not_successful : Response :=
  res_status_json 400 (JObj [("success", JBool false)]).

Definition verify_payment_try (req_user : JsObject) (reference : string)
  : M Response :=
  record_call (CallVerify reference) ;;;
  data <- lift_result (paystack_verify env reference) ;;
  if String.eqb (verify_status data) "success"
  then
    save_with_ref (get_field "id" req_user)
      (fun donor s => (tt, insert_donation (new_donation data donor s) s)) ;;;
    ret donation_successful
  else ret not_successful.

Definition verify_payment_catch (err : JsError) : M Response :=
  console_error [LogStr "Paystack verification error:"; error_log_arg2 err] ;;;
  ret (res_status_json 500 (msg "Verification failed")).

Definition verify_payment (req_user : JsObject) (reference : string) : M Response :=
  try_catch (verify_payment_try req_user reference) verify_payment_catch.

Definition route_verify_payment (h : AuthHeader) (reference : string) : M Response :=
  authMiddleware h (fun u => verify_payment u reference).

(** ** GET /api/donations *)

(** [sort({ date: -1 })]: newest first. *)
Fixpoint insert_by_date {A} (date : A -> Z) (x : A) (l : list A) : list A :=
  match l with
  | [] => [x]
  | y :: rest => if date y <? date x then x :: l
                 else y :: insert_by_date date x rest
  end.

Definition sort_newest_first {A} (date : A -> Z) (l : list A) : list A :=
  fold_right (insert_by_date date) [] l.

(** [populate('donor', 'name')]: the reference becomes the referenced
    user's [_id] and [name], or [null] when no such user exists. *)
Definition populate_name (s : Store) (ref : option ObjectId) : JsValue :=
  match ref with
  | None => JUndefined
  | Some id =>
      match find_user id s with
      | Some u => JObj ([("_id", JStr (user_id u))]
                        ++ opt_field "name" (opt_str (user_name u)))
      | None => JNull
      end
  end.

Definition donation_json (s : Store) (d : Donation) : JsObject :=
  [("_id", JStr (donation_id d));
   ("amount", JNum (donation_amount d))]
  ++ opt_field "donor" (populate_name s (donation_donor d))
  ++ [("date", date_json (donation_date d))].

Definition list_donations : M Response :=
  donations <- store_read (fun s =>
                 map (fun d => JObj (donation_json s d))
                     (sort_newest_first donation_date (donations s))) ;;
  ret (res_json (JArr donations)).

Definition route_list_donations (h : AuthHeader) : M Response :=
  authMiddleware h (fun u => adminMiddleware u list_donations).

(** ** Board minutes *)

Definition list_board_minutes_try : M Response :=
  minutes <- store_read (fun s =>
               sort_newest_first minute_date (boardMinutes s)) ;;
  ret (res_json (JArr (map (fun m => JObj (minute_json m)) minutes))).

Definition list_board_minutes : M Response :=
  try_catch list_board_minutes_try (catch_generic "Server error").

Definition route_list_board_minutes (h : AuthHeader) : M Response :=
  authMiddleware h (fun _ => list_board_minutes).

(** [upload.single(field)]: a file part of the request is sent to the
    upload sink and [req.file.path] is its URL; a failed upload leaves the
    route through [next(err)]. *)
Definition upload_single (file : option string) (next : option string -> M Response)
  : M Response :=
  match file with
  | None => next None
  | Some f =>
      record_call (CallUpload f) ;;;
      path <- lift_result (cloudinary_upload env f) ;;
      next (Some path)
  end.

Definition post_board_minute_try (req_file : option string)
           (title : option string) : M Response :=
  match req_file with
  | None => ret (res_status_json 400 (msg "PDF file is required"))
  | Some path =>
      match truthy_param title with
      | None => ret (res_status_json 400 (msg "Title is required"))
      | Some t =>
          minute <- store_op (fun s =>
                      let m := mkBoardMinute (fresh_oid env s) t path
                                             (now_ms env) in
                      if negb (str_truthy (minute_fileUrl m))
                      then (Throw (ValidationError "BoardMinute validation failed"), s)
                      else (Ok m, insert_minute m s)) ;;
          ret (res_json (JObj (minute_json minute)))
      end
  end.

Definition post_board_minute (req_file : option string) (title : option string)
  : M Response :=
  try_catch (post_board_minute_try req_file title) (catch_generic "Upload failed").

Definition route_post_board_minute (h : AuthHeader) (file title : option string)
  : M Response :=
  authMiddleware h (fun u =>
    adminMiddleware u (upload_single file (fun req_file =>
      post_board_minute req_file title))).

(** ** Admin routes *)

Definition list_users : M Response :=
  users <- store_read users ;;
  ret (res_json (JArr (map (fun u => JObj (drop_fields ["password"] (user_json u)))
                           users))).

Definition route_list_users (h : AuthHeader) : M Response :=
  authMiddleware h (fun u => adminMiddleware u list_users).

Definition set_isApproved (b : bool) (u : User) : User :=
  mkUser (user_id u) (user_email u) (user_password u) (user_name u)
         (user_graduationYear u) (user_bio u) (user_location u)
         (user_profilePic u) (user_role u) b.

(** [User.findByIdAndUpdate(id, { isApproved }, { new: true })]: the
    first user with that identifier is updated and returned as updated;
    [null] when there is none. *)
Fixpoint update_first (id : ObjectId) (b : bool) (us : list User)
  : option User * list User :=
  match us with
  | [] => (None, [])
  | u :: rest =>
      if String.eqb (user_id u) id
      then (Some (set_isApproved b u), set_isApproved b u :: rest)
      else let (r, rest') := update_first id b rest in (r, u :: rest')
  end.

Definition User_findByIdAndUpdate (id : string) (isApproved : bool)
  : M (option User) :=
  match cast_path_id id with
  | inl e => throw e
  | inr oid =>
      store_op (fun s =>
        let (r, us) := update_first oid isApproved (users s) in
        (Ok r, set_users s us))
  end.

(** The template literal of [mailOptions.html], with [user.name]
    interpolated. *)
Definition approval_html (name : string) : string :=
  (nl
   ++ "          <div style=" ++ dq ++ "font-family: Arial, sans-serif; max-width: 600px; margin: auto; padding: 30px; background: #fff; border-radius: 15px; box-shadow: 0 10px 30px rgba(255,192,203,0.2);" ++ dq ++ ">" ++ nl
   ++ "            <h1 style=" ++ dq ++ "color: #FFC0CB; text-align: center;" ++ dq ++ ">Welcome to the Family!</h1>" ++ nl
   ++ "            <p style=" ++ dq ++ "font-size: 18px; color: #333;" ++ dq ++ ">Dear " ++ name ++ ",</p>" ++ nl
   ++ "            <p style=" ++ dq ++ "font-size: 16px; line-height: 1.6; color: #555;" ++ dq ++ ">" ++ nl
   ++ "              Congratulations! Your KGHS Alumni Network account has been <strong>approved</strong>." ++ nl
   ++ "            </p>" ++ nl
   ++ "            <p style=" ++ dq ++ "font-size: 16px; line-height: 1.6; color: #555;" ++ dq ++ ">" ++ nl
   ++ "              You can now log in and connect with fellow graduates, share memories, and stay updated on events." ++ nl
   ++ "            </p>" ++ nl
   ++ "            <div style=" ++ dq ++ "text-align: center; margin: 40px 0;" ++ dq ++ ">" ++ nl
   ++ "              <a href=" ++ dq ++ "https://kghs-frontend.onrender.com/login" ++ dq ++ " style=" ++ dq ++ "background: #FFC0CB; color: white; padding: 15px 40px; text-decoration: none; border-radius: 50px; font-size: 18px; font-weight: bold;" ++ dq ++ ">" ++ nl
   ++ "                Log In Now" ++ nl
   ++ "              </a>" ++ nl
   ++ "            </div>" ++ nl
   ++ "            <p style=" ++ dq ++ "color: #777; font-size: 14px; text-align: center;" ++ dq ++ ">" ++ nl
   ++ "              Warm regards,<br><strong>The KGHS Alumni Team</strong>" ++ nl
   ++ "            </p>" ++ nl
   ++ "          </div>" ++ nl
   ++ "        ")%string.

Definition name_in_template (n : option string) : string :=
  match n with Some s => s | None => "undefined" end.

Definition approval_mail (u : User) : MailOptions :=
  mkMailOptions (EMAIL_USER env) (user_email u)
    "🎉 Your KGHS Alumni Account Has Been Approved!"
    (approval_html (name_in_template (user_name u))).

Definition transporter_sendMail (opts : MailOptions) : M unit :=
  record_call (CallSendMail opts) ;;;
  match sendMail env opts with
  | Some e => throw e
  | None => ret tt
  end.

(** PUT /api/admin/users/:id, for a boolean [isApproved] in the body. *)
Definition update_user_try (id : string) (isApproved : bool) : M Response :=
  user <- User_findByIdAndUpdate id isApproved ;;
  (if isApproved
   then match user with
        | None =>
            throw (TypeError "Cannot read properties of null (reading 'email')")
        | Some u => transporter_sendMail (approval_mail u)
        end
   else ret tt) ;;;
  ret (res_json (match user with
                 | Some u => JObj (drop_fields ["password"] (user_json u))
                 | None => JNull
                 end)).

Definition update_user (id : string) (isApproved : bool) : M Response :=
  try_catch (update_user_try id isApproved) (catch_generic "Server error").

Definition route_update_user (h : AuthHeader) (id : string) (isApproved : bool)
  : M Response :=
  authMiddleware h (fun u => adminMiddleware u (update_user id isApproved)).

End Handlers.

(** ** Vocabulary of the statements *)

(** The next store operation of [w] is answered. *)
Definition store_answers (w : World) : Prop := hd None (faults w) = None.

(** The world after one store operation that left the store at [s]. *)
Definition after_store_op (w : World) (s : Store) : World :=
  mkWorld s (log w) (calls w) (tl (faults w)).

Definition logged (entry : LogEntry) (w : World) : World :=
  mkWorld (store w) (log w ++ [entry]) (calls w) (faults w).

Definition called (c : ExtCall) (w : World) : World :=
  mkWorld (store w) (log w) (calls w ++ [c]) (faults w).

Definition is_error (r : Response) : Prop := 400 <= status r.

(** The identity [req_user] belongs to a stored user whose role is
    admin. *)
Definition is_admin (req_user : JsObject) (s : Store) : bool :=
  match cast_oid (get_field "id" req_user) with
  | inr (Some id) =>
      match find_user id s with
      | Some u => String.eqb (user_role u) "admin"
      | None => false
      end
  | _ => false
  end.

Definition forbidden : Response :=
  res_status_json 403 (msg "Admin access required").

(** [needle] occurs in [hay] when letter case is ignored. *)
Definition contains_ci (needle hay : string) : Prop :=
  exists pre post : string,
    toLowerCase hay = (pre ++ toLowerCase needle ++ post)%string.

Fixpoint string_forallb (p : ascii -> bool) (s : string) : bool :=
  match s with
  | EmptyString => true
  | String c rest => p c && string_forallb p rest
  end.

(** A pattern without regular-expression operators. *)
Definition plain_pattern (p : string) : bool :=
  string_forallb (fun c => negb (regex_meta c)) p.

(** [try_body] runs inside a [try] whose [catch] logs [entry err] and
    answers [reply err]: a throw becomes that answer, anything else goes
    through and is no 500. *)
Definition guarded (try_body handler : M Response)
           (reply : JsError -> Response) (entry : JsError -> LogEntry) : Prop :=
  forall w,
    match try_body w with
    | (Throw e, w1) => handler w = (Ok (reply e), logged (entry e) w1)
    | (Ok r, w1) => handler w = (Ok r, w1) /\ status r <> 500
    end.

(** The fields of a serialised record. *)
Definition record_fields (v : JsValue) : JsObject :=
  match v with JObj fields => fields | _ => [] end.

(** The items of a pattern without operators: its characters. *)
Fixpoint plain_items (p : string) : list PatItem :=
  match p with
  | EmptyString => []
  | String c rest => PChar c :: plain_items rest
  end.

(** The admin-gated routes: listing users, listing donations, creating
    a News record and creating a BoardMinute record. *)
Definition admin_routes (env : Env) (b : NewsBody) (file title : option string)
  : list (AuthHeader -> M Response) :=
  [ route_list_users env;
    route_list_donations env;
    (fun h => route_post_news env h b);
    (fun h => route_post_board_minute env h file title) ].

(** [h] is accepted by [authMiddleware] and decodes to [req_user]. *)
Definition authenticates (env : Env) (h : AuthHeader) (req_user : JsObject) : Prop :=
  no_token h = false /\ jwt_verify env h (JWT_SECRET env) = inr req_user.

Definition status_of (o : Outcome Response) : option Z :=
  match o with Ok r => Some (status r) | Throw _ => None end.

(** ** A concrete deployment for the examples *)

Module Sample.

Definition gateway_up (args : InitArgs) : JsError + string :=
  inr ("https://checkout.paystack.com/" ++ init_reference args)%string.

Definition gateway_refuses (args : InitArgs) : JsError + string :=
  inl (mkJsError "StatusCodeError" "401 - Unauthorized"
                 (Some (mkRespData (Some "Invalid key")))).

Definition mail_up (opts : MailOptions) : option JsError := None.

Definition mail_down (opts : MailOptions) : option JsError :=
  Some (mkJsError "Error" "connect ECONNREFUSED smtp-relay.brevo.com:587" None).

Definition verify_as (st : string) (reference : string) : JsError + VerifyData :=
  inr (mkVerifyData st 500000).

Definition env_with (init : InitArgs -> JsError + string)
           (verify : string -> JsError + VerifyData)
           (mail : MailOptions -> option JsError) : Env :=
  mkEnv "s3cret" "noreply@kghs.com" 1700000000000 2023 "x7k2p"
        (fun n => ("65f00000000000000000" ++ show_Z (1000 + Z.of_nat n))%string)
        "salt"
        (fun password salt => (salt ++ "$" ++ password)%string)
        (fun password hash => String.eqb hash ("salt$" ++ password)%string)
        init verify mail
        (fun f => inr ("https://res.cloudinary.com/kghs/" ++ f)%string)
        (fun _ => None)
        (fun _ => None).

Definition env : Env := env_with gateway_up (verify_as "success") mail_up.

Definition ada : User :=
  mkUser "65e000000000000000000a01" "ada@kghs.com" "salt$lovelace" (Some "Ada") (Some 1999) None
         (Some "Lagos") None "alumni" true.

Definition bisi : User :=
  mkUser "65e000000000000000000a02" "bisi@kghs.com" "salt$okoye" (Some "Bisi") (Some 2005) None
         (Some "Abuja") None "alumni" false.

Definition head : User :=
  mkUser "65e000000000000000000a00" "head@kghs.com" "salt$principal" (Some "Head") (Some 1980) None
         None None "admin" true.

Definition store0 : Store := mkStore [head; ada; bisi] [] [] [] [] 3%nat.

Definition world0 : World := mkWorld store0 [] [] [].

(** The same world with the store unreachable. *)
Definition world_down : World :=
  mkWorld store0 [] []
          [Some (mkJsError "MongoNetworkError" "connection timed out" None)].

(** The decoded session of a user who logged in. *)
Definition session (u : User) : JsObject :=
  [("id", JStr (user_id u)); ("iat", JNum 1700000000); ("exp", JNum 1700604800)].

End Sample.

(** ** Routes beside the ones above *)

Section OtherRoutes.

Variable env : Env.

(** GET /api/profile: the caller's own record, without the password;
    [null] when the identity has no record. *)
Definition get_profile (req_user : JsObject) : M Response :=
  user <- User_findById (get_field "id" req_user) ;;
  ret (res_json (match user with
                 | Some u => JObj (drop_fields ["password"] (user_json u))
                 | None => JNull
                 end)).

Definition route_get_profile (h : AuthHeader) : M Response :=
  authMiddleware env h get_profile.



(** A reply as a body may carry it in [replies]. *)
Record ReplyBody := mkReplyBody {
  replybody_content : option string;
  replybody_author : option string;
  replybody_date : option Z;
  replybody_id : option string
}.

(** The keys of the body the ForumThread schema has a path for.  The
    handler spreads the body and then sets [author], so the body's own
    [author] is never used. *)
Record ThreadBody := mkThreadBody {
  threadbody_title : option string;
  threadbody_content : option string;
  threadbody_author : option string;
  threadbody_date : option Z;
  threadbody_id : option string;
  threadbody_replies : list ReplyBody
}.

(** The subdocument of one reply of the body, given the driver's next
    identifier slot: its [author] and a given [_id] are cast, [date] and
    [_id] take their defaults when absent. *)
Definition reply_of_body (rb : ReplyBody) : JsError + (nat -> Reply) :=
  match cast_oid (opt_str (replybody_author rb)),
        cast_given_id (replybody_id rb) with
  | inl e, _ => inl e
  | _, inl e => inl e
  | inr author, inr given =>
      inr (fun slot =>
             mkReply (match given with Some id => id | None => new_oid env slot end)
                     (replybody_content rb) author
                     (or_now env (replybody_date rb)))
  end.

Fixpoint replies_of_body (rbs : list ReplyBody) : JsError + (nat -> list Reply) :=
  match rbs with
  | [] => inr (fun _ => [])
  | rb :: rest =>
      match reply_of_body rb, replies_of_body rest with
      | inl e, _ => inl e
      | _, inl e => inl e
      | inr mk, inr mks => inr (fun slot => mk slot :: mks (S slot))
      end
  end.

(** A new thread takes one identifier slot and each of its replies the
    next ones. *)
Definition insert_thread (t : ForumThread) (s : Store) : Store :=
  mkStore (users s) (news s) (threads s ++ [t]) (donations s)
          (boardMinutes s)
          (S (inserted s) + List.length (thread_replies t)).

(** POST /api/forums: [new ForumThread({ ...req.body, author })] and
    [save]; every cast error rejects the save before the store is
    asked. *)
Definition post_thread (req_user : JsObject) (b : ThreadBody) : M Response :=
  match replies_of_body (threadbody_replies b) with
  | inl e => throw e
  | inr replies =>
      thread <- save_new env (get_field "id" req_user) (threadbody_id b)
                  (fun id s =>
                     existsb (fun t => String.eqb (thread_id t) id) (threads s))
                  (fun author id s =>
                     let t := mkForumThread id (threadbody_title b)
                                (threadbody_content b) author
                                (or_now env (threadbody_date b))
                                (replies (S (inserted s))) in
                     (t, insert_thread t s)) ;;
      ret (res_json (JObj (thread_json thread)))
  end.

Definition route_post_thread (h : AuthHeader) (b : ThreadBody) : M Response :=
  authMiddleware env h (fun u => post_thread u b).

End OtherRoutes.

(** Lists in non-increasing order of [date]. *)
Definition newest_first {A} (date : A -> Z) (l : list A) : Prop :=
  StronglySorted (fun a b => date b <= date a) l.

(** The payload [authMiddleware] decodes from the token login issued
    for [u] in environment [env_login]. *)
Definition session_of (env_login : Env) (u : User) : JsObject :=
  [("id", JStr (user_id u));
   ("iat", JNum (inject_Z (seconds (now_ms env_login))));
   ("exp", JNum (inject_Z (seconds (now_ms env_login) + 7 * 24 * 60 * 60)))].

Module SampleForum.

Definition reunion : ForumThread :=
  mkForumThread "65e000000000000000000b01" (Some "Reunion 2024")
                (Some "Who is coming?") (Some "65e000000000000000000a01")
                1699000000000 [].

Definition store1 : Store :=
  mkStore [Sample.head; Sample.ada; Sample.bisi] [] [reunion] [] [] 4%nat.

Definition world1 : World := mkWorld store1 [] [] [].

(** A deployment whose clock is eight days ahead of [Sample.env]. *)
Definition env_later : Env :=
  mkEnv "s3cret" "noreply@kghs.com" (1700000000000 + 8 * 24 * 60 * 60 * 1000)
        2023 "q9z1m"
        (fun n => ("65f00000000000000000" ++ show_Z (1000 + Z.of_nat n))%string)
        "salt"
        (fun password salt => (salt ++ "$" ++ password)%string)
        (fun password hash => String.eqb hash ("salt$" ++ password)%string)
        Sample.gateway_up (Sample.verify_as "success") Sample.mail_up
        (fun f => inr ("https://res.cloudinary.com/kghs/" ++ f)%string)
        (fun _ => None)
        (fun _ => None).

End SampleForum.

(** * Properties *)

Local Open Scope js_scope.

(** ** The monad *)

Lemma store_op_answers A (f : Store -> Outcome A * Store) (w : World) :
  store_answers w ->
  store_op f w = (fst (f (store w)), after_store_op w (snd (f (store w)))).
Proof.
  unfold store_answers, store_op, after_store_op.
  destruct (faults w) as [|[e|] rest]; simpl; intros H; try discriminate;
    destruct (f (store w)); reflexivity.
Qed.

Lemma store_op_fault A (f : Store -> Outcome A * Store) (w : World) e :
  hd None (faults w) = Some e ->
  store_op f w = (Throw e, after_store_op w (store w)).
Proof.
  unfold store_op, after_store_op.
  destruct (faults w) as [|[e'|] rest]; simpl; intros H; try discriminate.
  now inversion H.
Qed.

(** Whatever the fault script says, a read leaves the store as it was. *)
Lemma store_read_store A (f : Store -> A) (w : World) :
  exists o, store_read f w = (o, after_store_op w (store w)).
Proof.
  unfold store_read, store_op, after_store_op.
  destruct (faults w) as [|[e|] rest]; simpl; eauto.
Qed.

Lemma store_read_answers A (f : Store -> A) (w : World) :
  store_answers w ->
  store_read f w = (Ok (f (store w)), after_store_op w (store w)).
Proof.
  intros H. unfold store_read. now rewrite store_op_answers.
Qed.

Lemma store_read_fault A (f : Store -> A) (w : World) e :
  hd None (faults w) = Some e ->
  store_read f w = (Throw e, after_store_op w (store w)).
Proof.
  intros H. unfold store_read. now rewrite (store_op_fault _ _ H).
Qed.

(** ** Lookups by identifier *)

Lemma find_user_some (id : ObjectId) (s : Store) (u : User) :
  find_user id s = Some u ->
  well_formed_oid id = true /\
  find (fun v => String.eqb (user_id v) id) (users s) = Some u.
Proof.
  unfold find_user. destruct (well_formed_oid id); [auto|discriminate].
Qed.


Lemma find_thread_some (id : ObjectId) (s : Store) (t : ForumThread) :
  find_thread id s = Some t ->
  well_formed_oid id = true /\
  find (fun x => String.eqb (thread_id x) id) (threads s) = Some t.
Proof.
  unfold find_thread. destruct (well_formed_oid id); [auto|discriminate].
Qed.

Lemma cast_path_id_ok (id : string) :
  well_formed_oid id = true -> cast_path_id id = inr id.
Proof. unfold cast_path_id. now intros ->. Qed.

(** ** Login *)

(** C1 (as amended): a login with a known email and a password that
    does not match the stored hash is answered invalid-credentials when
    the user is approved and pending-approval when the user is not: the
    approval check comes before the password check. *)
Theorem login_wrong_password (env : Env) (b : LoginBody) (w : World) (u : User) :
  store_answers w ->
  findOne_by_email (login_email b) (store w) = Some u ->
  bcrypt_compare env (login_password b) (user_password u) = false ->
  login env b w =
    (Ok (if user_isApproved u then invalid_credentials else pending_approval),
     after_store_op w (store w)).
Proof.
  intros Hw Hu Hp.
  unfold login, try_catch, login_try, bind, User_findOne.
  rewrite (store_read_answers _ Hw), Hu.
  destruct (user_isApproved u); simpl; [rewrite Hp|]; reflexivity.
Qed.

Lemma login_wrong_password_witness :
  login Sample.env (mkLoginBody "ada@kghs.com" "byron") Sample.world0 =
    (Ok invalid_credentials, Sample.world0).
Proof.
  apply (@login_wrong_password Sample.env (mkLoginBody "ada@kghs.com" "byron")
           Sample.world0 Sample.ada); reflexivity.
Defined.

(** C1 (as stated) fails: Bisi is not approved yet; a login with her
    email and a wrong password is answered pending-approval (403), not
    invalid-credentials. *)
Lemma pending_approval_precedes_password_check :
  let b := mkLoginBody "bisi@kghs.com" "wrong" in
  findOne_by_email (login_email b) Sample.store0 = Some Sample.bisi /\
  user_isApproved Sample.bisi = false /\
  bcrypt_compare Sample.env (login_password b) (user_password Sample.bisi) = false /\
  fst (login Sample.env b Sample.world0) = Ok pending_approval /\
  fst (login Sample.env b Sample.world0) <> Ok invalid_credentials.
Proof.
  cbv zeta. repeat split; try reflexivity.
  vm_compute. discriminate.
Qed.

(** ** Signup *)

(** C8: a signup whose email is already registered is answered with an
    error and leaves the store exactly as it was; when the store answers
    the lookup, the error is the duplicate-email one. *)
Theorem signup_duplicate_email (env : Env) (b : SignupBody) (w : World) (u : User) :
  findOne_by_email (signup_email b) (store w) = Some u ->
  exists r w',
    signup env b w = (Ok r, w') /\
    is_error r /\
    store w' = store w /\
    (store_answers w -> r = res_status_json 400 (msg "User already exists")).
Proof.
  intros Hu.
  unfold signup, try_catch, signup_try, bind, User_findOne.
  destruct (hd None (faults w)) as [e|] eqn:Hf.
  - rewrite (store_read_fault _ _ Hf). simpl.
    eexists _, _. split; [reflexivity|]. unfold is_error, store_answers. simpl.
    repeat split; try lia. rewrite Hf. discriminate.
  - rewrite (store_read_answers _ Hf), Hu.
    eexists _, _. split; [reflexivity|]. unfold is_error. simpl.
    repeat split; lia.
Qed.

Lemma signup_duplicate_email_witness :
  exists r w',
    signup Sample.env (mkSignupBody "ada@kghs.com" "pw" (Some "Ada II") (Some 2001))
           Sample.world0 = (Ok r, w') /\
    is_error r /\
    store w' = store Sample.world0 /\
    (store_answers Sample.world0 ->
     r = res_status_json 400 (msg "User already exists")).
Proof.
  apply (@signup_duplicate_email Sample.env _ Sample.world0 Sample.ada).
  reflexivity.
Defined.

(** ** Approval and its notification *)

Lemma set_isApproved_id b u : user_id (set_isApproved b u) = user_id u.
Proof. reflexivity. Qed.

Lemma update_first_found (id : ObjectId) (b : bool) (us : list User) (u : User) :
  find (fun u => String.eqb (user_id u) id) us = Some u ->
  exists us',
    update_first id b us = (Some (set_isApproved b u), us') /\
    find (fun u => String.eqb (user_id u) id) us' = Some (set_isApproved b u).
Proof.
  induction us as [|v us IH]; simpl; [discriminate|].
  destruct (String.eqb (user_id v) id) eqn:E; intros H.
  - inversion H; subst. eexists. split; [reflexivity|].
    simpl. now rewrite E.
  - destruct (IH H) as (us' & Hup & Hfind). rewrite Hup.
    eexists. split; [reflexivity|]. simpl. now rewrite E.
Qed.

(** A store failure on the update is answered with the generic 500. *)
Lemma update_user_store_failure (env : Env) (id : string) (b : bool)
      (w : World) (e : JsError) :
  hd None (faults w) = Some e ->
  fst (update_user env id b w) = Ok (res_status_json 500 (msg "Server error")).
Proof.
  intros Hf.
  unfold update_user, try_catch, update_user_try, bind, User_findByIdAndUpdate.
  destruct (cast_path_id id); [reflexivity|].
  now rewrite (store_op_fault _ _ Hf).
Qed.

(** C2: when an approval ([isApproved = true]) is written and the mail
    transport then fails, the answer is the same generic 500 a store
    failure gets, the failure is only logged, and the user stays
    approved in the store. *)
Theorem approval_survives_mail_failure
        (env : Env) (id : string) (w : World) (u : User) (e : JsError) :
  store_answers w ->
  find_user id (store w) = Some u ->
  sendMail env (approval_mail env (set_isApproved true u)) = Some e ->
  exists w',
    update_user env id true w =
      (Ok (res_status_json 500 (msg "Server error")), w') /\
    (exists u', find_user id (store w') = Some u' /\ user_isApproved u' = true) /\
    log w' = log w ++ [[LogErr e]] /\
    calls w' = calls w ++ [CallSendMail (approval_mail env (set_isApproved true u))] /\
    (forall w0 e0,
        hd None (faults w0) = Some e0 ->
        fst (update_user env id true w0) = fst (update_user env id true w)).
Proof.
  intros Hw Hu He.
  destruct (find_user_some _ _ Hu) as [Hwf Hu'].
  destruct (@update_first_found id true _ _ Hu') as (us' & Hup & Hfind).
  assert (Hrun : update_user env id true w =
                 (Ok (res_status_json 500 (msg "Server error")),
                  logged [LogErr e]
                    (called (CallSendMail (approval_mail env (set_isApproved true u)))
                       (after_store_op w (set_users (store w) us'))))).
  { unfold update_user, try_catch, update_user_try, bind, User_findByIdAndUpdate.
    rewrite (cast_path_id_ok _ Hwf), (store_op_answers _ Hw), Hup. simpl.
    unfold transporter_sendMail, bind, record_call. simpl. rewrite He.
    reflexivity. }
  eexists. split; [exact Hrun|]. simpl.
  split; [|split; [reflexivity|split; [reflexivity|]]].
  - exists (set_isApproved true u). split; [|reflexivity].
    unfold find_user. rewrite Hwf. exact Hfind.
  - intros w0 e0 Hf. rewrite Hrun, (update_user_store_failure env id true _ Hf).
    reflexivity.
Qed.

Lemma approval_survives_mail_failure_witness :
  exists w',
    update_user (Sample.env_with Sample.gateway_up (Sample.verify_as "success")
                                 Sample.mail_down)
                "65e000000000000000000a02" true Sample.world0 =
      (Ok (res_status_json 500 (msg "Server error")), w') /\
    find_user "65e000000000000000000a02" (store w') = Some (set_isApproved true Sample.bisi).
Proof.
  destruct (@approval_survives_mail_failure
              (Sample.env_with Sample.gateway_up (Sample.verify_as "success")
                               Sample.mail_down)
              "65e000000000000000000a02" Sample.world0 Sample.bisi
              (mkJsError "Error" "connect ECONNREFUSED smtp-relay.brevo.com:587" None)
              eq_refl eq_refl eq_refl) as (w' & Hrun & _).
  exists w'. split; [exact Hrun|].
  vm_compute in Hrun. inversion Hrun. reflexivity.
Defined.

(** ** Failures caught at the handler boundary *)

Lemma catch_generic_run (m : string) (e : JsError) (w : World) :
  catch_generic m e w = (Ok (res_status_json 500 (msg m)), logged [LogErr e] w).
Proof. reflexivity. Qed.

Ltac split_run :=
  repeat match goal with
    | H : (_, _) = (_, _) |- _ => inversion H; subst; clear H
    | H : Ok _ = Ok _ |- _ => inversion H; subst; clear H
    | H : context [match ?x with _ => _ end] |- _ =>
        destruct x eqn:?; simpl in H; try discriminate
    end.

Lemma signup_try_status env b w r w1 :
  signup_try env b w = (Ok r, w1) -> status r <> 500.
Proof.
  unfold signup_try, bind, User_findOne, store_read, store_op, ret.
  intros H. split_run; simpl; lia.
Qed.

Lemma login_try_status env b w r w1 :
  login_try env b w = (Ok r, w1) -> status r <> 500.
Proof.
  unfold login_try, bind, User_findOne, store_read, store_op, ret.
  intros H. split_run; simpl; lia.
Qed.

Lemma verify_payment_try_status env u ref w r w1 :
  verify_payment_try env u ref w = (Ok r, w1) -> status r <> 500.
Proof.
  unfold verify_payment_try, bind, record_call, lift_result, save_with_ref,
    store_op, ret, throw.
  intros H. simpl in H. split_run; simpl; lia.
Qed.

Lemma list_board_minutes_try_status w r w1 :
  list_board_minutes_try w = (Ok r, w1) -> status r <> 500.
Proof.
  unfold list_board_minutes_try, bind, store_read, store_op, ret.
  intros H. split_run; simpl; lia.
Qed.

Lemma post_board_minute_try_status env f t w r w1 :
  post_board_minute_try env f t w = (Ok r, w1) -> status r <> 500.
Proof.
  unfold post_board_minute_try, bind, store_op, ret.
  intros H. split_run; simpl; lia.
Qed.

Lemma update_user_try_status env id b w r w1 :
  update_user_try env id b w = (Ok r, w1) -> status r <> 500.
Proof.
  unfold update_user_try, bind, User_findByIdAndUpdate, store_op,
    transporter_sendMail, record_call, bind, ret, throw.
  intros H. simpl in H. split_run; simpl; lia.
Qed.

Lemma create_payment_try_status env u b w r w1 :
  create_payment_try env u b w = (Ok r, w1) -> status r <> 500.
Proof.
  unfold create_payment_try, bind, record_call, lift_result, ret, throw.
  intros H. simpl in H. split_run; simpl; lia.
Qed.

Lemma guarded_try_catch (body : M Response) (reply : JsError -> Response)
      (entry : JsError -> LogEntry) (handler : JsError -> M Response) :
  (forall e w, handler e w = (Ok (reply e), logged (entry e) w)) ->
  (forall w r w1, body w = (Ok r, w1) -> status r <> 500) ->
  guarded body (try_catch body handler) reply entry.
Proof.
  intros Hh Hs w. unfold try_catch.
  destruct (body w) as [[r|e] w1] eqn:E.
  - split; [reflexivity|]. eapply Hs, E.
  - apply Hh.
Qed.

(** C3 (as amended): a failure raised inside the [try] block of signup,
    login, verify-payment, the two board-minute handlers and the admin
    user update is answered 500 with a body that is exactly a fixed
    [msg] and is written to the server log; in create-payment the 500
    body carries, next to a fixed [msg], a [details] field with the
    failure's own message. *)
Theorem caught_failures (env : Env) :
  (forall b, guarded (signup_try env b) (signup env b)
               (fun _ => res_status_json 500 (msg "Server error"))
               (fun e => [LogErr e])) /\
  (forall b, guarded (login_try env b) (login env b)
               (fun _ => res_status_json 500 (msg "Server error"))
               (fun e => [LogErr e])) /\
  (forall u ref, guarded (verify_payment_try env u ref) (verify_payment env u ref)
               (fun _ => res_status_json 500 (msg "Verification failed"))
               (fun e => [LogStr "Paystack verification error:"; error_log_arg2 e])) /\
  guarded list_board_minutes_try list_board_minutes
               (fun _ => res_status_json 500 (msg "Server error"))
               (fun e => [LogErr e]) /\
  (forall f t, guarded (post_board_minute_try env f t) (post_board_minute env f t)
               (fun _ => res_status_json 500 (msg "Upload failed"))
               (fun e => [LogErr e])) /\
  (forall id b, guarded (update_user_try env id b) (update_user env id b)
               (fun _ => res_status_json 500 (msg "Server error"))
               (fun e => [LogErr e])) /\
  (forall u b, guarded (create_payment_try env u b) (create_payment env u b)
               (fun e => res_status_json 500
                           (JObj [("msg", JStr "Payment initialization failed");
                                  ("details", JStr (error_message e))]))
               (fun e => [LogStr "Paystack initialization error:"; error_log_arg e])).
Proof.
  repeat split; intros; apply guarded_try_catch; try reflexivity; intros.
  - eapply signup_try_status; eassumption.
  - eapply login_try_status; eassumption.
  - eapply verify_payment_try_status; eassumption.
  - eapply list_board_minutes_try_status; eassumption.
  - eapply post_board_minute_try_status; eassumption.
  - eapply update_user_try_status; eassumption.
  - eapply create_payment_try_status; eassumption.
Qed.

(** The failures the statement above is about do occur: an unreachable
    store throws inside signup's [try] block, a refusing gateway inside
    create-payment's. *)
Lemma signup_try_store_unreachable env b w e :
  hd None (faults w) = Some e ->
  signup_try env b w = (Throw e, after_store_op w (store w)).
Proof.
  intros Hf. unfold signup_try, bind, User_findOne.
  now rewrite (store_read_fault _ _ Hf).
Qed.

Lemma create_payment_try_gateway_failure env u a c w e :
  (1 <= a)%Q ->
  paystack_initialize env
    (payment_args env u a (match c with Some c => c | None => "NGN" end)) = inl e ->
  create_payment_try env u (mkPaymentBody (Some a) c) w =
    (Throw e,
     called (CallInitialize
               (payment_args env u a (match c with Some c => c | None => "NGN" end))) w).
Proof.
  intros Ha He. unfold create_payment_try, bind, record_call, lift_result. simpl.
  assert (Hz : Qeq_bool a 0 = false).
  { destruct (Qeq_bool a 0) eqn:E; [|reflexivity].
    apply Qeq_bool_iff in E. rewrite E in Ha. now compute in Ha. }
  assert (Hl : Qlt_bool a 1 = false).
  { unfold Qlt_bool. apply Qle_bool_iff in Ha. now rewrite Ha. }
  rewrite Hz, Hl. simpl. rewrite He. reflexivity.
Qed.

(** C3 (as stated) fails: with a gateway that refuses the secret key,
    create-payment answers 500 with the gateway's message in [details];
    the body is not a bare generic [msg]. *)
Lemma create_payment_surfaces_gateway_message :
  let env := Sample.env_with Sample.gateway_refuses (Sample.verify_as "success")
                             Sample.mail_up in
  let run := create_payment env (Sample.session Sample.ada)
                            (mkPaymentBody (Some 50%Q) None) Sample.world0 in
  fst run = Ok (res_status_json 500
                  (JObj [("msg", JStr "Payment initialization failed");
                         ("details", JStr "Invalid key")])) /\
  (forall m, fst run <> Ok (res_status_json 500 (msg m))).
Proof.
  cbv zeta. split; [reflexivity|].
  intros m. vm_compute. discriminate.
Qed.

(** ** Donations *)

(** C4: whatever the gateway says about a reference, verify-payment
    answers; a status other than "success" leaves the store as it was
    and is answered with the 400 failure response; a Donation is added
    only for status "success", and then it is one record whose amount is
    the gateway amount divided by 100 and whose donor is the identity of
    the request. *)
Theorem verify_payment_records_only_success
        (env : Env) (req_user : JsObject) (reference : string) (w : World) :
  exists r w',
    verify_payment env req_user reference w = (Ok r, w') /\
    match paystack_verify env reference with
    | inl _ =>
        store w' = store w /\ r = res_status_json 500 (msg "Verification failed")
    | inr data =>
        if String.eqb (verify_status data) "success"
        then
          (store w' = store w /\
           r = res_status_json 500 (msg "Verification failed") /\
           (~ store_answers w \/
            exists e, cast_oid (get_field "id" req_user) = inl e))
          \/
          (exists d,
              donations (store w') = donations (store w) ++ [d] /\
              donation_amount d = (inject_Z (verify_amount data) / 100)%Q /\
              cast_oid (get_field "id" req_user) = inr (donation_donor d) /\
              r = donation_successful /\
              store_answers w)
        else store w' = store w /\ r = not_successful /\ is_error r
    end.
Proof.
  unfold verify_payment, try_catch, verify_payment_try, bind, record_call,
    lift_result, save_with_ref.
  simpl.
  destruct (paystack_verify env reference) as [e|data]; simpl.
  { eexists _, _. split; [reflexivity|]. simpl. auto. }
  destruct (String.eqb (verify_status data) "success") eqn:Hs; simpl.
  2:{ eexists _, _. split; [reflexivity|]. simpl.
      repeat split. unfold is_error. simpl. lia. }
  set (w1 := mkWorld (store w) (log w) (calls w ++ [CallVerify reference])
                     (faults w)).
  destruct (cast_oid (get_field "id" req_user)) as [e|donor]; simpl.
  { eexists _, _. split; [reflexivity|]. simpl. left.
    repeat split. right. eauto. }
  destruct (hd None (faults w)) as [e|] eqn:Hf.
  - assert (Hf1 : hd None (faults w1) = Some e) by exact Hf.
    rewrite (store_op_fault _ _ Hf1). simpl.
    eexists _, _. split; [reflexivity|]. simpl. left.
    repeat split. left. unfold store_answers. rewrite Hf. discriminate.
  - assert (Hw : store_answers w1) by exact Hf.
    rewrite (store_op_answers _ Hw). simpl.
    eexists _, _. split; [reflexivity|]. simpl. right.
    eexists. repeat split. exact Hf.
Qed.

Lemma Qle_0_rejected (a : Q) :
  (a <= 0)%Q -> Qeq_bool a 0 || Qlt_bool a 1 = true.
Proof.
  intros Ha. apply orb_true_iff. right.
  unfold Qlt_bool. destruct (Qle_bool 1 a) eqn:E; [|reflexivity].
  apply Qle_bool_iff in E.
  exfalso. apply (Qle_not_lt 1 0); [|reflexivity].
  eapply Qle_trans; eassumption.
Qed.

(** C5: an amount of zero or below is answered with the validation
    error and nothing else happens (no gateway call, no log line, no
    store access); an amount of 100 with currency "usd" reaches the
    gateway's initialize operation as 10000 in currency "USD". *)
Theorem create_payment_validates_and_scales
        (env : Env) (req_user : JsObject) (currency : option string)
        (w : World) (a : Q) :
  (a <= 0)%Q ->
  create_payment env req_user (mkPaymentBody (Some a) currency) w =
    (Ok (res_status_json 400 (msg "Invalid amount")), w) /\
  exists o w' args,
    create_payment env req_user (mkPaymentBody (Some 100%Q) (Some "usd")) w
      = (o, w') /\
    calls w' = calls w ++ [CallInitialize args] /\
    init_amount args = 10000 /\
    init_currency args = "USD".
Proof.
  intros Ha. split.
  - unfold create_payment, try_catch, create_payment_try. simpl.
    rewrite (Qle_0_rejected Ha). destruct w; reflexivity.
  - unfold create_payment, try_catch, create_payment_try, bind, record_call,
      lift_result.
    simpl.
    match goal with
    | |- context [paystack_initialize env ?a] =>
        destruct (paystack_initialize env a) as [e|url] eqn:E
    end; simpl; eexists _, _, _; (split; [reflexivity|]); simpl;
      repeat split.
Qed.

Lemma create_payment_validates_and_scales_witness :
  create_payment Sample.env (Sample.session Sample.ada)
                 (mkPaymentBody (Some (-5 # 2)%Q) (Some "NGN")) Sample.world0 =
    (Ok (res_status_json 400 (msg "Invalid amount")), Sample.world0) /\
  exists o w' args,
    create_payment Sample.env (Sample.session Sample.ada)
                   (mkPaymentBody (Some 100%Q) (Some "usd")) Sample.world0
      = (o, w') /\
    calls w' = calls Sample.world0 ++ [CallInitialize args] /\
    init_amount args = 10000 /\
    init_currency args = "USD".
Proof.
  apply (@create_payment_validates_and_scales Sample.env
           (Sample.session Sample.ada) (Some "NGN") Sample.world0 (-5 # 2)%Q).
  discriminate.
Defined.

(** A successful login hands out [login_token] of the user it found. *)
Lemma login_issues_login_token (env : Env) (b : LoginBody) (w w' : World)
      (r : Response) :
  login env b w = (Ok r, w') ->
  status r = 200 ->
  exists u rest,
    findOne_by_email (login_email b) (store w) = Some u /\
    body r = JObj (("token", token_json (login_token env u)) :: rest).
Proof.
  unfold login, try_catch, login_try, bind, User_findOne, store_read, store_op,
    catch_generic, console_error, ret, invalid_credentials, pending_approval.
  intros H Hs.
  destruct (faults w) as [|[e|] rest]; simpl in H;
    try (inversion H; subst; simpl in Hs; discriminate);
    (destruct (findOne_by_email (login_email b) (store w)) as [u|] eqn:Hu;
     simpl in H; [|inversion H; subst; simpl in Hs; discriminate];
     destruct (user_isApproved u); simpl in H;
     [|inversion H; subst; simpl in Hs; discriminate];
     destruct (bcrypt_compare env (login_password b) (user_password u));
     simpl in H; inversion H; subst; simpl in Hs; try discriminate;
     eexists _, _; split; reflexivity).
Qed.

(** C9: the token login issues carries the user's id and nothing else,
    so a create-payment request that authenticates with it and passes
    the amount check calls the gateway's initialize operation with the
    fallback address 'alumni@kghs.com' as email. *)
Theorem login_token_payment_email
        (env env_login : Env) (usr : User) (b : PaymentBody) (a : Q) (w : World) :
  JWT_SECRET env_login = JWT_SECRET env ->
  seconds (now_ms env) < tok_exp (login_token env_login usr) ->
  pay_amount b = Some a ->
  (1 <= a)%Q ->
  tok_payload (login_token env_login usr) = [("id", JStr (user_id usr))] /\
  exists o w' args,
    route_create_payment env (SignedToken (login_token env_login usr)) b w
      = (o, w') /\
    calls w' = calls w ++ [CallInitialize args] /\
    init_email args = JStr "alumni@kghs.com".
Proof.
  intros Hk Hexp Hb Ha. split; [reflexivity|].
  unfold route_create_payment, authMiddleware. simpl.
  rewrite Hk, String.eqb_refl. simpl.
  simpl in Hexp. apply Z.leb_gt in Hexp. rewrite Hexp.
  unfold create_payment, try_catch, create_payment_try, bind, record_call,
    lift_result.
  rewrite Hb.
  assert (Hz : Qeq_bool a 0 = false).
  { destruct (Qeq_bool a 0) eqn:E; [|reflexivity].
    apply Qeq_bool_iff in E. rewrite E in Ha. now compute in Ha. }
  assert (Hl : Qlt_bool a 1 = false).
  { unfold Qlt_bool. apply Qle_bool_iff in Ha. now rewrite Ha. }
  rewrite Hz, Hl. simpl.
  match goal with
  | |- context [paystack_initialize env ?a] =>
      destruct (paystack_initialize env a) as [e|url] eqn:E
  end; simpl; eexists _, _, _; (split; [reflexivity|]); simpl; split;
    reflexivity.
Qed.

Lemma login_token_payment_email_witness :
  exists o w' args,
    route_create_payment Sample.env
      (SignedToken (login_token Sample.env Sample.ada))
      (mkPaymentBody (Some 25%Q) None) Sample.world0 = (o, w') /\
    calls w' = calls Sample.world0 ++ [CallInitialize args] /\
    init_email args = JStr "alumni@kghs.com".
Proof.
  apply (@login_token_payment_email Sample.env Sample.env Sample.ada
           (mkPaymentBody (Some 25%Q) None) 25%Q Sample.world0);
    solve [reflexivity | discriminate].
Defined.

(** ** The directory *)

Lemma has_field_drop_fields (k : string) (ks : list string) (o : JsObject) :
  In k ks -> has_field k (drop_fields ks o) = false.
Proof.
  intros Hk. unfold drop_fields.
  induction o as [|[k' v] o IH]; simpl; [reflexivity|].
  destruct (existsb (String.eqb k') ks) eqn:E; simpl; [exact IH|].
  rewrite IH, orb_false_r.
  destruct (String.eqb k k') eqn:Ek; [|reflexivity].
  apply String.eqb_eq in Ek. subst k'.
  assert (existsb (String.eqb k) ks = true).
  { apply existsb_exists. exists k. split; [exact Hk|apply String.eqb_refl]. }
  congruence.
Qed.

Lemma plain_char_not_dot (c : ascii) :
  regex_meta c = false -> Ascii.eqb c "." = false.
Proof.
  unfold regex_meta. simpl. intros H.
  repeat (apply orb_false_elim in H; destruct H as [? H]); assumption.
Qed.

Lemma compile_plain (p : string) :
  plain_pattern p = true -> compile_simple p = Some (plain_items p).
Proof.
  unfold plain_pattern.
  induction p as [|c p IH]; simpl; [reflexivity|].
  intros H. apply andb_true_iff in H. destruct H as [Hc Hp].
  apply negb_true_iff in Hc.
  rewrite (plain_char_not_dot _ Hc), Hc, (IH Hp). reflexivity.
Qed.

Lemma match_here_prefix (p s : string) :
  match_here (plain_items p) s = true <->
  exists post, toLowerCase s = (toLowerCase p ++ post)%string.
Proof.
  revert s. induction p as [|a p IH]; intros s; simpl.
  - split; [intros _; now exists (toLowerCase s)|reflexivity].
  - destruct s as [|c s]; simpl.
    + split; [discriminate|intros [post H]; discriminate].
    + rewrite andb_true_iff, Ascii.eqb_eq, IH. split.
      * intros [Hc [post H]]. exists post. now rewrite Hc, H.
      * intros [post H]. injection H as Hc H. split; [now symmetry|now exists post].
Qed.

Lemma search_contains_ci (p s : string) :
  search (plain_items p) s = true <-> contains_ci p s.
Proof.
  unfold contains_ci.
  induction s as [|c s IH].
  - simpl search. rewrite orb_false_r, match_here_prefix. split.
    + intros [post H]. now exists EmptyString, post.
    + intros (pre & post & H). destruct pre; [now exists post|discriminate].
  - simpl search. rewrite orb_true_iff, match_here_prefix, IH. split.
    + intros [[post H]|(pre & post & H)].
      * now exists EmptyString, post.
      * exists (String (lower_ascii c) pre), post. simpl. now rewrite H.
    + intros (pre & post & H). destruct pre as [|c0 pre].
      * left. now exists post.
      * right. simpl in H. injection H as _ H. now exists pre, post.
Qed.

(** On a pattern without operators the store's regular-expression test
    is containment up to letter case. *)
Lemma regex_i_plain (env : Env) (p : string) (test : string -> bool) (l : string) :
  plain_pattern p = true ->
  regex_i env p = Some test ->
  (test l = true <-> contains_ci p l).
Proof.
  intros Hp Ht. unfold regex_i in Ht. rewrite (compile_plain _ Hp) in Ht.
  inversion Ht; subst. apply search_contains_ci.
Qed.

Lemma truthy_param_some (p : option string) (s : string) :
  p = Some s -> s <> "" -> truthy_param p = Some s.
Proof.
  intros -> Hs. unfold truthy_param, str_truthy.
  destruct (String.eqb s "") eqn:E; [|reflexivity].
  apply String.eqb_eq in E. contradiction.
Qed.

(** C6 (as amended): the directory answers whenever the store does and
    the filters can be cast and compiled; no record it returns has a
    [password] or [isApproved] field; every returned user is a stored,
    approved user, whose graduation year is the year filter's number
    when that filter is given, and whose location is matched by the
    location filter read as a case-insensitive regular expression when
    that filter is given, which is containment up to letter case when
    the filter has no regular-expression operator in it. *)
Theorem directory_listing (env : Env) (q : DirectoryQuery) (w : World) :
  (store_answers w ->
   (forall y, filter_graduationYear (directory_filter q) = Some y ->
              castNumber env y <> None) ->
   (forall p, filter_location (directory_filter q) = Some p ->
              regex_i env p <> None) ->
   exists r, directory env q w = (Ok r, after_store_op w (store w))) /\
  (forall r w',
      directory env q w = (Ok r, w') ->
      exists us,
        r = res_json (JArr (map directory_record us)) /\
        forall u, In u us ->
          In u (users (store w)) /\
          user_isApproved u = true /\
          has_field "password" (record_fields (directory_record u)) = false /\
          has_field "isApproved" (record_fields (directory_record u)) = false /\
          (forall y, query_year q = Some y -> y <> "" ->
             exists z, castNumber env y = Some z /\
                       user_graduationYear u = Some z) /\
          (forall p, query_location q = Some p -> p <> "" ->
             exists test l,
               regex_i env p = Some test /\
               user_location u = Some l /\
               test l = true /\
               (plain_pattern p = true -> contains_ci p l))).
Proof.
  split.
  - intros Hw Hy Hp.
    unfold directory, bind, User_find_directory, cast_year.
    destruct (filter_graduationYear (directory_filter q)) as [y|] eqn:Ey.
    + specialize (Hy _ eq_refl).
      destruct (castNumber env y) as [z|]; [|contradiction].
      rewrite (store_op_answers _ Hw). unfold compile_location.
      destruct (filter_location (directory_filter q)) as [p|] eqn:Ep.
      * specialize (Hp _ eq_refl).
        destruct (regex_i env p); [|contradiction]. eexists; reflexivity.
      * eexists; reflexivity.
    + rewrite (store_op_answers _ Hw). unfold compile_location.
      destruct (filter_location (directory_filter q)) as [p|] eqn:Ep.
      * specialize (Hp _ eq_refl).
        destruct (regex_i env p); [|contradiction]. eexists; reflexivity.
      * eexists; reflexivity.
  - intros r w' Hrun.
    unfold directory, bind, User_find_directory in Hrun.
    destruct (cast_year env (directory_filter q)) as [y|e] eqn:Hy;
      [|discriminate].
    unfold store_op in Hrun.
    destruct (compile_location env (directory_filter q)) as [t|e] eqn:Ht;
      [|destruct (faults w) as [|[e'|] rest]; discriminate].
    assert (Hr : r = res_json (JArr (map directory_record
                        (filter (directory_selects y t) (users (store w)))))).
    { destruct (faults w) as [|[e'|] rest]; try discriminate;
        now inversion Hrun. }
    eexists. split; [exact Hr|].
    intros u Hu. apply filter_In in Hu.
    destruct Hu as [Hin Hu]. unfold directory_selects in Hu.
    apply andb_true_iff in Hu. destruct Hu as [Hu Hloc].
    apply andb_true_iff in Hu. destruct Hu as [Happ Hyear].
    split; [exact Hin|]. split; [exact Happ|].
    split; [apply has_field_drop_fields; simpl; auto|].
    split; [apply has_field_drop_fields; simpl; auto|].
    split.
    + intros s Hs Hne.
      unfold cast_year, directory_filter in Hy. cbn [filter_graduationYear] in Hy.
      rewrite (truthy_param_some Hs Hne) in Hy.
      destruct (castNumber env s) as [z|]; [|discriminate].
      inversion Hy; subst. exists z. split; [reflexivity|].
      simpl in Hyear. destruct (user_graduationYear u) as [g|]; [|discriminate].
      apply Z.eqb_eq in Hyear. now subst.
    + intros p Hq Hne.
      unfold compile_location, directory_filter in Ht. cbn [filter_location] in Ht.
      rewrite (truthy_param_some Hq Hne) in Ht.
      destruct (regex_i env p) as [test|] eqn:Hre; [|discriminate].
      inversion Ht; subst.
      simpl in Hloc. destruct (user_location u) as [l|]; [|discriminate].
      exists test, l. repeat split; try assumption.
      intros Hp. now apply (@regex_i_plain env p test l Hp Hre).
Qed.

(** C6 (as stated) fails: the location filter is a regular expression,
    not a substring.  Filter "." returns Ada, whose location "Lagos"
    contains no dot. *)
Lemma directory_location_is_a_pattern :
  fst (directory Sample.env (mkDirectoryQuery None (Some ".")) Sample.world0) =
    Ok (res_json (JArr [directory_record Sample.ada])) /\
  user_location Sample.ada = Some "Lagos" /\
  ~ contains_ci "." "Lagos".
Proof.
  split; [reflexivity|]. split; [reflexivity|].
  intros (pre & post & H). cbn in H.
  repeat (destruct pre as [|? pre]; cbn in H;
          [discriminate|injection H as _ H]).
  destruct pre; discriminate.
Qed.

(** ** The admin gate *)

(** For an identity that is no admin the gate never calls the rest of
    the route: it reads the store once, writes nothing, and answers 403
    unless the read itself fails. *)
Lemma adminMiddleware_gate (req_user : JsObject) (next : M Response)
      (w : World) :
  is_admin req_user (store w) = false ->
  exists o w',
    adminMiddleware req_user next w = (o, w') /\
    store w' = store w /\
    calls w' = calls w /\
    (forall r, o = Ok r -> r = forbidden) /\
    (store_answers w ->
     forall i, cast_oid (get_field "id" req_user) = inr i -> o = Ok forbidden).
Proof.
  intros Hadm. unfold is_admin in Hadm.
  unfold adminMiddleware, bind, User_findById.
  destruct (cast_oid (get_field "id" req_user)) as [e|[id|]].
  - eexists _, _. split; [reflexivity|]. repeat split; discriminate.
  - destruct (hd None (faults w)) as [e|] eqn:Hf.
    + rewrite (store_read_fault _ _ Hf). eexists _, _. split; [reflexivity|].
      repeat split; try discriminate.
      unfold store_answers. rewrite Hf. discriminate.
    + rewrite (store_read_answers _ Hf).
      destruct (find_user id (store w)) as [u|].
      * rewrite Hadm. eexists _, _. split; [reflexivity|].
        repeat split. intros r Hr. now inversion Hr.
      * eexists _, _. split; [reflexivity|].
        repeat split. intros r Hr. now inversion Hr.
  - destruct (hd None (faults w)) as [e|] eqn:Hf.
    + rewrite (store_read_fault _ _ Hf). eexists _, _. split; [reflexivity|].
      repeat split; try discriminate.
      unfold store_answers. rewrite Hf. discriminate.
    + rewrite (store_read_answers _ Hf). eexists _, _. split; [reflexivity|].
      repeat split. intros r Hr. now inversion Hr.
Qed.

Lemma authMiddleware_next (env : Env) (h : AuthHeader) (req_user : JsObject)
      (next : JsObject -> M Response) :
  authenticates env h req_user ->
  authMiddleware env h next = next req_user.
Proof.
  intros [Hn Hv]. unfold authMiddleware. now rewrite Hn, Hv.
Qed.

(** C7: on the four admin-gated routes (list users, list donations,
    create News, create BoardMinute) an authenticated identity whose
    stored user record is missing or has a role other than admin gets
    the forbidden error, and the store and the upload sink are left
    untouched; a 200 on these routes therefore means the identity's
    stored role is admin. *)
Theorem admin_routes_require_admin
        (env : Env) (b : NewsBody) (file title : option string)
        (R : AuthHeader -> M Response)
        (h : AuthHeader) (req_user : JsObject) (w : World) :
  In R (admin_routes env b file title) ->
  authenticates env h req_user ->
  (is_admin req_user (store w) = false ->
   exists o w',
     R h w = (o, w') /\
     store w' = store w /\
     calls w' = calls w /\
     (forall r, o = Ok r -> r = forbidden) /\
     (store_answers w ->
      forall i, cast_oid (get_field "id" req_user) = inr i -> o = Ok forbidden)) /\
  (forall r w',
      R h w = (Ok r, w') -> status r = 200 ->
      is_admin req_user (store w) = true).
Proof.
  intros HR Hauth.
  assert (Hgate : exists next,
             R h w = adminMiddleware req_user next w).
  { simpl in HR. destruct HR as [<-|[<-|[<-|[<-|[]]]]];
      unfold route_list_users, route_list_donations, route_post_news,
        route_post_board_minute;
      rewrite (authMiddleware_next _ Hauth); eexists; reflexivity. }
  destruct Hgate as [next Hgate]. rewrite Hgate.
  assert (Hno : is_admin req_user (store w) = false ->
                exists o w',
                  adminMiddleware req_user next w = (o, w') /\
                  store w' = store w /\
                  calls w' = calls w /\
                  (forall r, o = Ok r -> r = forbidden) /\
                  (store_answers w ->
                   forall i, cast_oid (get_field "id" req_user) = inr i ->
                             o = Ok forbidden)).
  { intros Hadm. exact (@adminMiddleware_gate req_user next w Hadm). }
  split; [exact Hno|].
  intros r w' Hrun Hs.
  destruct (is_admin req_user (store w)) eqn:Hadm; [reflexivity|].
  destruct (Hno eq_refl) as (o & w1 & Hrun1 & _ & _ & Hforb & _).
  rewrite Hrun in Hrun1. inversion Hrun1; subst.
  rewrite (Hforb r eq_refl) in Hs. discriminate.
Qed.

Lemma admin_routes_require_admin_witness :
  let h := SignedToken (login_token Sample.env Sample.ada) in
  let post := fun h => route_post_news Sample.env h
                         (mkNewsBody (Some "Reunion") (Some "Save the date") None None None) in
  exists o w',
    post h Sample.world0 = (o, w') /\
    store w' = store Sample.world0 /\
    calls w' = calls Sample.world0 /\
    o = Ok forbidden.
Proof.
  cbv zeta.
  destruct (@admin_routes_require_admin Sample.env
              (mkNewsBody (Some "Reunion") (Some "Save the date") None None None) None None
              (fun h => route_post_news Sample.env h
                          (mkNewsBody (Some "Reunion") (Some "Save the date") None None None))
              (SignedToken (login_token Sample.env Sample.ada))
              (Sample.session Sample.ada) Sample.world0)
    as [Hno _].
  - simpl. auto.
  - split; reflexivity.
  - destruct (Hno eq_refl) as (o & w' & Hrun & Hst & Hc & _ & Hf).
    exists o, w'. repeat split; try assumption.
    apply (Hf eq_refl (Some "65e000000000000000000a01")). reflexivity.
Defined.

(** ** Forum replies *)

Lemma find_replaced_thread (t t' : ForumThread) (id : ObjectId) (ts : list ForumThread) :
  thread_id t' = id ->
  find (fun x => String.eqb (thread_id x) id) ts = Some t ->
  find (fun x => String.eqb (thread_id x) id)
       (map (fun x => if String.eqb (thread_id x) (thread_id t') then t' else x) ts)
  = Some t'.
Proof.
  intros <-. induction ts as [|x ts IH]; simpl; [discriminate|].
  destruct (String.eqb (thread_id x) (thread_id t')) eqn:E; simpl.
  - intros _. now rewrite String.eqb_refl.
  - rewrite E. exact IH.
Qed.

(** With the thread in the store, the store answering twice and an
    identity that casts, the reply is appended and the thread returned. *)
Lemma reply_to_existing_thread (env : Env) (req_user : JsObject) (id : string)
      (content : option string) (w : World) (t : ForumThread)
      (author : option ObjectId) :
  faults w = [] ->
  find_thread id (store w) = Some t ->
  cast_oid (get_field "id" req_user) = inr author ->
  exists r w',
    forum_reply env req_user id content w = (Ok r, w') /\
    status r = 200 /\
    exists t',
      find_thread id (store w') = Some t' /\
      thread_replies t' =
        thread_replies t ++ [mkReply (fresh_oid env (store w)) content author
                                     (now_ms env)].
Proof.
  intros Hf Ht Hc.
  destruct (find_thread_some _ _ Ht) as [Hwf Ht'].
  assert (Hid : thread_id t = id).
  { apply find_some in Ht'. now apply String.eqb_eq. }
  unfold forum_reply, bind, ForumThread_findById, save_with_ref.
  assert (Hw : store_answers w) by (unfold store_answers; now rewrite Hf).
  rewrite (cast_path_id_ok _ Hwf), (store_read_answers _ Hw), Ht.
  assert (Hw2 : store_answers (after_store_op w (store w)))
    by (unfold store_answers; simpl; now rewrite Hf).
  rewrite Hc, (store_op_answers _ Hw2). cbn [fst snd after_store_op store].
  eexists _, _. split; [reflexivity|]. split; [reflexivity|].
  exists (push_reply t (mkReply (fresh_oid env (store w)) content author
                                (now_ms env))).
  split; [|reflexivity].
  unfold find_thread, replace_thread. rewrite Hwf. cbn [threads store].
  apply find_replaced_thread with (t := t); [exact Hid|exact Ht'].
Qed.



(** ** Sample runs *)

Example login_success :
  exists rest,
    fst (login Sample.env (mkLoginBody "ada@kghs.com" "lovelace") Sample.world0) =
    Ok (res_json (JObj (("token", token_json (login_token Sample.env Sample.ada))
                        :: rest))).
Proof. eexists. reflexivity. Qed.

Example signup_then_pending :
  let b := mkSignupBody "chidi@kghs.com" "anagonye" (Some "Chidi") (Some 2010) in
  let (o, w1) := signup Sample.env b Sample.world0 in
  status_of o = Some 200 /\
  List.length (users (store w1)) = 4%nat /\
  fst (login Sample.env (mkLoginBody "chidi@kghs.com" "anagonye") w1) =
    Ok pending_approval.
Proof. vm_compute. repeat split. Qed.

Example verify_payment_success :
  let (o, w1) := verify_payment Sample.env (Sample.session Sample.ada)
                                "kghs-don-1-abc" Sample.world0 in
  o = Ok donation_successful /\
  map donation_amount (donations (store w1)) = [(500000 / 100)%Q] /\
  map donation_donor (donations (store w1)) = [Some "65e000000000000000000a01"].
Proof. vm_compute. repeat split. Qed.

Example directory_by_year :
  fst (directory Sample.env (mkDirectoryQuery (Some "1999") (Some "LAG"))
                 Sample.world0) =
    Ok (res_json (JArr [directory_record Sample.ada])).
Proof. reflexivity. Qed.

(** * Further properties of the handlers *)

(** ** Signup and the approval gate *)

Lemma find_none_existsb A (P : A -> bool) (l : list A) :
  find P l = None -> existsb P l = false.
Proof.
  induction l as [|x l IH]; simpl; [reflexivity|].
  destruct (P x); [discriminate|exact IH].
Qed.

Lemma find_app_last A (P : A -> bool) (l : list A) (x : A) :
  find P l = None -> P x = true -> find P (l ++ [x]) = Some x.
Proof.
  induction l as [|y l IH]; simpl; intros Hl Hx.
  - now rewrite Hx.
  - destruct (P y); [discriminate|now apply IH].
Qed.

Lemma str_truthy_nonempty (s : string) : s <> "" -> str_truthy s = true.
Proof.
  intros Hs. unfold str_truthy. destruct (String.eqb s "") eqn:E; [|reflexivity].
  apply String.eqb_eq in E. contradiction.
Qed.

(** X1: signup with a new email and a graduation year below 1950 or
    above the current year plus ten is answered 400 'Invalid graduation
    year' and stores nothing. *)
Theorem signup_rejects_year_out_of_range
        (env : Env) (b : SignupBody) (w : World) (y : Z) :
  store_answers w ->
  findOne_by_email (signup_email b) (store w) = None ->
  signup_graduationYear b = Some y ->
  y < 1950 \/ currentYear env + 10 < y ->
  signup env b w =
    (Ok (res_status_json 400 (msg "Invalid graduation year")),
     after_store_op w (store w)).
Proof.
  intros Hw Hnew Hy Hout.
  unfold signup, try_catch, signup_try, bind, User_findOne.
  rewrite (store_read_answers _ Hw), Hnew, Hy.
  assert (Hinv : invalid_year env (Some y) = true).
  { simpl. apply orb_true_iff. destruct Hout as [H|H]; [left|right];
      now apply Z.ltb_lt. }
  now rewrite Hinv.
Qed.

Lemma signup_rejects_year_out_of_range_witness :
  signup Sample.env (mkSignupBody "dayo@kghs.com" "pw" (Some "Dayo") (Some 2034))
         Sample.world0 =
    (Ok (res_status_json 400 (msg "Invalid graduation year")), Sample.world0).
Proof.
  apply (@signup_rejects_year_out_of_range Sample.env
           (mkSignupBody "dayo@kghs.com" "pw" (Some "Dayo") (Some 2034))
           Sample.world0 2034); try reflexivity.
  right. reflexivity.
Defined.

(** X2: signup with a new, non-empty email and a graduation year that
    is absent or within [1950, current year + 10] (bounds included)
    appends exactly one user, not approved, with role alumni and the
    hash as password, answers 200 without a token, and every login for
    that email is then answered pending-approval, whatever the
    password. *)
Theorem signup_creates_pending_user (env : Env) (b : SignupBody) (w : World) :
  faults w = [] ->
  findOne_by_email (signup_email b) (store w) = None ->
  (forall y, signup_graduationYear b = Some y ->
             1950 <= y <= currentYear env + 10) ->
  signup_email b <> "" ->
  bcrypt_hash env (signup_password b) (bcrypt_genSalt env) <> "" ->
  exists r w' u,
    signup env b w = (Ok r, w') /\
    status r = 200 /\
    get_field "token" (record_fields (body r)) = JUndefined /\
    users (store w') = users (store w) ++ [u] /\
    user_email u = signup_email b /\
    user_password u = bcrypt_hash env (signup_password b) (bcrypt_genSalt env) /\
    user_isApproved u = false /\
    user_role u = "alumni" /\
    forall password,
      fst (login env (mkLoginBody (signup_email b) password) w') =
        Ok pending_approval.
Proof.
  intros Hf Hnew Hy He Hh.
  assert (Hw : store_answers w) by (unfold store_answers; now rewrite Hf).
  assert (Hinv : invalid_year env (signup_graduationYear b) = false).
  { destruct (signup_graduationYear b) as [y|]; [|reflexivity].
    specialize (Hy y eq_refl). simpl. apply orb_false_iff.
    split; apply Z.ltb_ge; lia. }
  set (hash := bcrypt_hash env (signup_password b) (bcrypt_genSalt env)) in *.
  set (u := new_user env b hash (store w)).
  set (w1 := after_store_op w (store w)).
  assert (Hw1 : store_answers w1) by (unfold store_answers; simpl; now rewrite Hf).
  assert (Hrun : signup env b w =
                 (Ok (res_json (msg "Signup successful! Your account is pending admin approval. You will receive an email when approved.")),
                  after_store_op w1 (insert_user u (store w)))).
  { unfold signup, try_catch, signup_try, bind, User_findOne.
    rewrite (store_read_answers _ Hw), Hnew, Hinv.
    fold hash. unfold User_save. fold w1. rewrite (store_op_answers _ Hw1).
    cbn [store w1 after_store_op]. fold u.
    assert (Hreq : str_truthy (user_email u) && str_truthy (user_password u) = true).
    { cbn [u new_user user_email user_password].
      now rewrite (str_truthy_nonempty He), (str_truthy_nonempty Hh). }
    assert (Hun : existsb (fun v => String.eqb (user_email v) (user_email u))
                          (users (store w)) = false).
    { apply find_none_existsb. exact Hnew. }
    rewrite Hreq, Hun. reflexivity. }
  exists (res_json (msg "Signup successful! Your account is pending admin approval. You will receive an email when approved.")),
         (after_store_op w1 (insert_user u (store w))), u.
  split; [exact Hrun|]. repeat split.
  intros password.
  unfold login, try_catch, login_try, bind, User_findOne.
  assert (Hw2 : store_answers (after_store_op w1 (insert_user u (store w))))
    by (unfold store_answers; simpl; now rewrite Hf).
  rewrite (store_read_answers _ Hw2).
  cbn [store after_store_op]. unfold findOne_by_email.
  cbn [users insert_user login_email].
  rewrite (find_app_last _ _ u Hnew); [reflexivity|].
  cbn [u new_user user_email]. apply String.eqb_refl.
Qed.

Lemma signup_creates_pending_user_witness :
  exists r w' u,
    signup Sample.env (mkSignupBody "dayo@kghs.com" "pw" (Some "Dayo") (Some 2033))
           Sample.world0 = (Ok r, w') /\
    status r = 200 /\
    users (store w') = users Sample.store0 ++ [u] /\
    user_isApproved u = false /\
    fst (login Sample.env (mkLoginBody "dayo@kghs.com" "pw") w') =
      Ok pending_approval.
Proof.
  destruct (@signup_creates_pending_user Sample.env
              (mkSignupBody "dayo@kghs.com" "pw" (Some "Dayo") (Some 2033))
              Sample.world0)
    as (r & w' & u & Hrun & Hs & _ & Hu & _ & _ & Ha & _ & Hl).
  - reflexivity.
  - reflexivity.
  - intros y Hy. inversion Hy. cbn. lia.
  - discriminate.
  - discriminate.
  - exists r, w', u. repeat split; try assumption. apply Hl.
Defined.

(** X3: when the store answers, login answers 200 exactly when the
    email is registered, the user is approved and the password matches
    the stored hash; the store is never changed by a login. *)
Theorem login_grants_token_iff (env : Env) (b : LoginBody) (w : World) :
  store_answers w ->
  exists r,
    login env b w = (Ok r, after_store_op w (store w)) /\
    (status r = 200 <->
     exists u,
       findOne_by_email (login_email b) (store w) = Some u /\
       user_isApproved u = true /\
       bcrypt_compare env (login_password b) (user_password u) = true).
Proof.
  intros Hw.
  unfold login, try_catch, login_try, bind, User_findOne.
  rewrite (store_read_answers _ Hw).
  destruct (findOne_by_email (login_email b) (store w)) as [u|] eqn:Hu.
  2:{ eexists. split; [reflexivity|]. simpl. split; [discriminate|].
      intros (u & H & _). discriminate. }
  destruct (user_isApproved u) eqn:Ha; simpl.
  2:{ eexists. split; [reflexivity|]. simpl. split; [discriminate|].
      intros (u' & H & Ha' & _). inversion H; subst. congruence. }
  destruct (bcrypt_compare env (login_password b) (user_password u)) eqn:Hp; simpl.
  - eexists. split; [reflexivity|]. simpl. split; [|reflexivity].
    intros _. exists u. auto.
  - eexists. split; [reflexivity|]. simpl. split; [discriminate|].
    intros (u' & H & _ & Hp'). inversion H; subst. congruence.
Qed.

Lemma login_grants_token_iff_witness :
  exists r,
    login Sample.env (mkLoginBody "ada@kghs.com" "lovelace") Sample.world0 =
      (Ok r, Sample.world0) /\
    status r = 200.
Proof.
  destruct (@login_grants_token_iff Sample.env
              (mkLoginBody "ada@kghs.com" "lovelace") Sample.world0 eq_refl)
    as (r & Hrun & Hiff).
  exists r. split; [exact Hrun|].
  apply Hiff. exists Sample.ada. repeat split.
Defined.

(** ** Sessions *)

(** X4: the token login issues is accepted by [authMiddleware] under the
    same secret for seven days: strictly before [iat + 604800] seconds
    the rest of the route runs with the payload [{id, iat, exp}]; from
    that second on the request is answered 401 'Invalid token' and the
    rest of the route does not run. *)
Theorem login_token_valid_for_seven_days
        (env_login env : Env) (u : User) (next : JsObject -> M Response)
        (w : World) :
  JWT_SECRET env_login = JWT_SECRET env ->
  (seconds (now_ms env) < seconds (now_ms env_login) + 604800 ->
   authMiddleware env (SignedToken (login_token env_login u)) next w =
     next (session_of env_login u) w) /\
  (seconds (now_ms env_login) + 604800 <= seconds (now_ms env) ->
   authMiddleware env (SignedToken (login_token env_login u)) next w =
     (Ok (res_status_json 401 (msg "Invalid token")), w)).
Proof.
  intros Hk. unfold authMiddleware. simpl.
  rewrite Hk, String.eqb_refl. simpl. split; intros H.
  - apply Z.leb_gt in H. now rewrite H.
  - apply Z.leb_le in H. now rewrite H.
Qed.

Lemma login_token_valid_for_seven_days_witness :
  route_get_profile Sample.env (SignedToken (login_token Sample.env Sample.ada))
                    Sample.world0 =
    get_profile (session_of Sample.env Sample.ada) Sample.world0 /\
  route_get_profile SampleForum.env_later
                    (SignedToken (login_token Sample.env Sample.ada))
                    Sample.world0 =
    (Ok (res_status_json 401 (msg "Invalid token")), Sample.world0).
Proof.
  split.
  - apply (@login_token_valid_for_seven_days Sample.env Sample.env Sample.ada
             get_profile Sample.world0 eq_refl).
    reflexivity.
  - apply (@login_token_valid_for_seven_days Sample.env SampleForum.env_later
             Sample.ada get_profile Sample.world0 eq_refl).
    discriminate.
Defined.

(** X5: [authMiddleware] answers 401 'No token' to a request without
    the header or with an empty token, and 401 'Invalid token' to a
    string that is no token and to a token signed with another secret;
    in none of these cases does the rest of the route run or the world
    change. *)
Theorem authMiddleware_rejections
        (env : Env) (next : JsObject -> M Response) (w : World) :
  authMiddleware env NoHeader next w =
    (Ok (res_status_json 401 (msg "No token")), w) /\
  authMiddleware env (RawToken "") next w =
    (Ok (res_status_json 401 (msg "No token")), w) /\
  (forall s, s <> "" ->
     authMiddleware env (RawToken s) next w =
       (Ok (res_status_json 401 (msg "Invalid token")), w)) /\
  (forall t, tok_secret t <> JWT_SECRET env ->
     authMiddleware env (SignedToken t) next w =
       (Ok (res_status_json 401 (msg "Invalid token")), w)).
Proof.
  repeat split.
  - intros s Hs. unfold authMiddleware. simpl.
    now rewrite (str_truthy_nonempty Hs).
  - intros t Ht. unfold authMiddleware. simpl.
    apply String.eqb_neq in Ht. now rewrite Ht.
Qed.

(** In the environment that issued it, a login token is accepted. *)
Lemma fresh_token_accepted (env : Env) (u : User)
      (next : JsObject -> M Response) (w : World) :
  authMiddleware env (SignedToken (login_token env u)) next w =
    next (session_of env u) w.
Proof.
  unfold authMiddleware. simpl. rewrite String.eqb_refl. simpl.
  assert (H : (seconds (now_ms env) + 604800 <=? seconds (now_ms env)) = false)
    by (apply Z.leb_gt; lia).
  now rewrite H.
Qed.

Lemma update_first_keeps_find (id : ObjectId) (b : bool) (P : User -> bool)
      (us : list User) (u : User) :
  (forall v, P (set_isApproved b v) = P v) ->
  find (fun v => String.eqb (user_id v) id) us = Some u ->
  find P us = Some u ->
  fst (update_first id b us) = Some (set_isApproved b u) /\
  find P (snd (update_first id b us)) = Some (set_isApproved b u).
Proof.
  intros HP. induction us as [|x us IH]; simpl; [discriminate|].
  destruct (String.eqb (user_id x) id) eqn:Ex; intros Hid Hp.
  - inversion Hid; subst x. simpl. split; [reflexivity|].
    rewrite HP.
    destruct (P u) eqn:Pu; [reflexivity|].
    apply find_some in Hp. destruct Hp as [_ Hp]. congruence.
  - destruct (P x) eqn:Px.
    + inversion Hp; subst x.
      apply find_some in Hid. destruct Hid as [_ Hid]. congruence.
    + destruct (IH Hid Hp) as [H1 H2].
      destruct (update_first id b us) as [r rest]. simpl in *.
      split; [exact H1|]. now rewrite Px.
Qed.

Lemma update_user_run (env : Env) (u : User) (b : bool) (w : World) :
  faults w = [] ->
  find_user (user_id u) (store w) = Some u ->
  (b = true -> sendMail env (approval_mail env (set_isApproved b u)) = None) ->
  exists w1,
    update_user env (user_id u) b w =
      (Ok (res_json (JObj (drop_fields ["password"]
                             (user_json (set_isApproved b u))))), w1) /\
    faults w1 = [] /\
    log w1 = log w /\
    users (store w1) = snd (update_first (user_id u) b (users (store w))) /\
    calls w1 = (if b then calls w ++ [CallSendMail (approval_mail env (set_isApproved b u))]
                else calls w).
Proof.
  intros Hf Hu Hm.
  assert (Hw : store_answers w) by (unfold store_answers; now rewrite Hf).
  destruct (find_user_some _ _ Hu) as [Hwf Hu'].
  destruct (@update_first_found (user_id u) b _ _ Hu') as (us' & Hup & _).
  unfold update_user, try_catch, update_user_try, bind, User_findByIdAndUpdate.
  rewrite (cast_path_id_ok _ Hwf), (store_op_answers _ Hw). rewrite Hup.
  cbn [fst snd].
  destruct b.
  - unfold transporter_sendMail, bind, record_call. simpl.
    rewrite (Hm eq_refl). simpl. eexists. split; [reflexivity|]. simpl.
    rewrite Hf. repeat split.
  - simpl. eexists. split; [reflexivity|]. simpl.
    rewrite Hf. repeat split.
Qed.

(** X6: [authMiddleware] does not look at the store, so revoking a
    user's approval does not end the user's session: after the admin
    update with [isApproved = false] every login for the user is
    answered pending-approval, yet the token issued earlier still gets
    the directory. *)
Theorem revoked_user_keeps_session
        (env : Env) (u : User) (password : string) (w : World) :
  faults w = [] ->
  findOne_by_email (user_email u) (store w) = Some u ->
  find_user (user_id u) (store w) = Some u ->
  exists r1 w1,
    update_user env (user_id u) false w = (Ok r1, w1) /\
    status r1 = 200 /\
    fst (login env (mkLoginBody (user_email u) password) w1) =
      Ok pending_approval /\
    exists r2 w2,
      route_directory env (SignedToken (login_token env u))
                      (mkDirectoryQuery None None) w1 = (Ok r2, w2) /\
      status r2 = 200.
Proof.
  intros Hf He Hid.
  destruct (@update_user_run env u false w Hf Hid) as (w1 & Hrun & Hf1 & _ & Hus & _);
    [discriminate|].
  assert (Hw1 : store_answers w1) by (unfold store_answers; now rewrite Hf1).
  destruct (find_user_some _ _ Hid) as [_ Hid'].
  destruct (@update_first_keeps_find (user_id u) false
              (fun v => String.eqb (user_email v) (user_email u))
              (users (store w)) u (fun v => eq_refl) Hid' He) as [_ Hfind].
  eexists _, w1. split; [exact Hrun|]. split; [reflexivity|]. split.
  - unfold login, try_catch, login_try, bind, User_findOne.
    rewrite (store_read_answers _ Hw1). unfold findOne_by_email.
    cbn [login_email]. rewrite Hus, Hfind. reflexivity.
  - assert (Hauth : authMiddleware env (SignedToken (login_token env u))
                      (fun _ => directory env (mkDirectoryQuery None None)) w1
                    = directory env (mkDirectoryQuery None None) w1).
    { apply fresh_token_accepted. }
    unfold route_directory. rewrite Hauth.
    unfold directory, bind, User_find_directory. cbn [cast_year directory_filter
      truthy_param query_year query_location filter_graduationYear].
    rewrite (store_op_answers _ Hw1). cbn.
    eexists _, _. split; reflexivity.
Qed.

Lemma revoked_user_keeps_session_witness :
  exists r1 w1,
    update_user Sample.env "65e000000000000000000a01" false Sample.world0 = (Ok r1, w1) /\
    status r1 = 200 /\
    fst (login Sample.env (mkLoginBody "ada@kghs.com" "lovelace") w1) =
      Ok pending_approval /\
    exists r2 w2,
      route_directory Sample.env (SignedToken (login_token Sample.env Sample.ada))
                      (mkDirectoryQuery None None) w1 = (Ok r2, w2) /\
      status r2 = 200.
Proof.
  apply (@revoked_user_keeps_session Sample.env Sample.ada "lovelace"
           Sample.world0); reflexivity.
Defined.

(** ** The admin update *)




(** X8: approving a user opens the approval gate: when the store and
    the mail transport answer, the update with [isApproved = true] is
    answered 200 with the user's record, one mail goes to the user's
    address, and a login with the user's password is then answered 200
    whatever the approval flag was before. *)
Theorem approval_enables_login
        (env : Env) (u : User) (password : string) (w : World) :
  faults w = [] ->
  findOne_by_email (user_email u) (store w) = Some u ->
  find_user (user_id u) (store w) = Some u ->
  sendMail env (approval_mail env (set_isApproved true u)) = None ->
  bcrypt_compare env password (user_password u) = true ->
  exists r1 w1 opts r2 w2,
    update_user env (user_id u) true w = (Ok r1, w1) /\
    status r1 = 200 /\
    calls w1 = calls w ++ [CallSendMail opts] /\
    mail_to opts = user_email u /\
    login env (mkLoginBody (user_email u) password) w1 = (Ok r2, w2) /\
    status r2 = 200.
Proof.
  intros Hf He Hid Hm Hp.
  destruct (@update_user_run env u true w Hf Hid (fun _ => Hm))
    as (w1 & Hrun & Hf1 & _ & Hus & Hc).
  assert (Hw1 : store_answers w1) by (unfold store_answers; now rewrite Hf1).
  destruct (find_user_some _ _ Hid) as [_ Hid'].
  destruct (@update_first_keeps_find (user_id u) true
              (fun v => String.eqb (user_email v) (user_email u))
              (users (store w)) u (fun v => eq_refl) Hid' He) as [_ Hfind].
  eexists _, w1, _, _, _. split; [exact Hrun|]. split; [reflexivity|].
  split; [exact Hc|]. split; [reflexivity|].
  unfold login, try_catch, login_try, bind, User_findOne.
  rewrite (store_read_answers _ Hw1). unfold findOne_by_email.
  cbn [login_email login_password]. rewrite Hus, Hfind.
  cbn [set_isApproved user_isApproved user_password negb]. rewrite Hp.
  split; reflexivity.
Qed.

Lemma approval_enables_login_witness :
  exists r1 w1 opts r2 w2,
    update_user Sample.env "65e000000000000000000a02" true Sample.world0 = (Ok r1, w1) /\
    status r1 = 200 /\
    calls w1 = calls Sample.world0 ++ [CallSendMail opts] /\
    mail_to opts = "bisi@kghs.com" /\
    login Sample.env (mkLoginBody "bisi@kghs.com" "okoye") w1 = (Ok r2, w2) /\
    status r2 = 200.
Proof.
  apply (@approval_enables_login Sample.env Sample.bisi "okoye" Sample.world0);
    reflexivity.
Defined.

(** ** Behind the admin gate *)

Lemma adminMiddleware_pass (req_user : JsObject) (next : M Response) (w : World) :
  store_answers w ->
  is_admin req_user (store w) = true ->
  adminMiddleware req_user next w = next (after_store_op w (store w)).
Proof.
  intros Hw Hadm. unfold is_admin in Hadm.
  unfold adminMiddleware, bind, User_findById.
  destruct (cast_oid (get_field "id" req_user)) as [e|[id|]]; try discriminate.
  rewrite (store_read_answers _ Hw).
  destruct (find_user id (store w)) as [u|]; [|discriminate].
  now rewrite Hadm.
Qed.

(** X9: [adminMiddleware] has no [catch]: when the store fails on its
    lookup of the caller, the error leaves the route (no response is
    produced and nothing is logged), also on the admin update whose own
    handler would have answered 500. *)
Theorem admin_lookup_failure_escapes
        (env : Env) (h : AuthHeader) (req_user : JsObject) (i : option ObjectId)
        (id : string) (b : bool) (w : World) (e : JsError) :
  authenticates env h req_user ->
  cast_oid (get_field "id" req_user) = inr i ->
  hd None (faults w) = Some e ->
  route_update_user env h id b w = (Throw e, after_store_op w (store w)).
Proof.
  intros Hauth Hc Hf.
  unfold route_update_user. rewrite (authMiddleware_next _ Hauth).
  unfold adminMiddleware, bind, User_findById. rewrite Hc.
  destruct i; now rewrite (store_read_fault _ _ Hf).
Qed.

Lemma admin_lookup_failure_escapes_witness :
  exists e,
    route_update_user Sample.env (SignedToken (login_token Sample.env Sample.head))
                      "65e000000000000000000a02" true Sample.world_down =
      (Throw e, Sample.world0) /\
    err_name e = "MongoNetworkError".
Proof.
  eexists. split.
  - apply (@admin_lookup_failure_escapes Sample.env
             (SignedToken (login_token Sample.env Sample.head))
             (session_of Sample.env Sample.head) (Some "65e000000000000000000a00") "65e000000000000000000a02" true
             Sample.world_down).
    + split; reflexivity.
    + reflexivity.
    + reflexivity.
  - reflexivity.
Defined.

(** X10: an admin whose lookup and listing are answered gets every
    stored user, in store order, and none of the records has a
    [password] field. *)
Theorem admin_lists_all_users
        (env : Env) (h : AuthHeader) (req_user : JsObject) (w : World) :
  authenticates env h req_user ->
  is_admin req_user (store w) = true ->
  faults w = [] ->
  exists records w',
    route_list_users env h w = (Ok (res_json (JArr records)), w') /\
    store w' = store w /\
    map (fun v => get_field "_id" (record_fields v)) records =
      map (fun u => JStr (user_id u)) (users (store w)) /\
    Forall (fun v => has_field "password" (record_fields v) = false) records.
Proof.
  intros Hauth Hadm Hf.
  assert (Hw : store_answers w) by (unfold store_answers; now rewrite Hf).
  unfold route_list_users. rewrite (authMiddleware_next _ Hauth).
  rewrite (@adminMiddleware_pass _ _ _ Hw Hadm).
  unfold list_users, bind.
  assert (Hw1 : store_answers (after_store_op w (store w)))
    by (unfold store_answers; simpl; now rewrite Hf).
  rewrite (store_read_answers _ Hw1). cbn [store after_store_op].
  eexists _, _. split; [reflexivity|]. split; [reflexivity|]. split.
  - rewrite map_map. apply map_ext. intros u. reflexivity.
  - apply Forall_forall. intros v Hv. apply in_map_iff in Hv.
    destruct Hv as (u & <- & _). apply has_field_drop_fields. simpl. auto.
Qed.

Lemma admin_lists_all_users_witness :
  exists records w',
    route_list_users Sample.env (SignedToken (login_token Sample.env Sample.head))
                     Sample.world0 = (Ok (res_json (JArr records)), w') /\
    List.length records = 3%nat.
Proof.
  destruct (@admin_lists_all_users Sample.env
              (SignedToken (login_token Sample.env Sample.head))
              (session_of Sample.env Sample.head) Sample.world0)
    as (records & w' & Hrun & _ & Hids & _).
  - split; reflexivity.
  - reflexivity.
  - reflexivity.
  - exists records, w'. split; [exact Hrun|].
    apply (f_equal (@List.length JsValue)) in Hids.
    now rewrite !length_map in Hids.
Defined.



(** X12: the board-minute route uploads before it validates: an admin's
    request with a file and no (or an empty) title is answered 400
    'Title is required' and stores no BoardMinute, but the file has
    already been sent to the upload sink. *)
Theorem board_minute_without_title
        (env : Env) (h : AuthHeader) (req_user : JsObject) (file path : string)
        (title : option string) (w : World) :
  authenticates env h req_user ->
  is_admin req_user (store w) = true ->
  store_answers w ->
  cloudinary_upload env file = inr path ->
  title = None \/ title = Some "" ->
  exists w',
    route_post_board_minute env h (Some file) title w =
      (Ok (res_status_json 400 (msg "Title is required")), w') /\
    store w' = store w /\
    calls w' = calls w ++ [CallUpload file].
Proof.
  intros Hauth Hadm Hw Hup Ht.
  unfold route_post_board_minute. rewrite (authMiddleware_next _ Hauth).
  rewrite (@adminMiddleware_pass _ _ _ Hw Hadm).
  unfold upload_single, bind, record_call, lift_result. cbn. rewrite Hup.
  unfold post_board_minute, try_catch, post_board_minute_try.
  assert (Hno : truthy_param title = None) by (destruct Ht; subst; reflexivity).
  rewrite Hno. eexists. repeat split.
Qed.

Lemma board_minute_without_title_witness :
  exists w',
    route_post_board_minute Sample.env
      (SignedToken (login_token Sample.env Sample.head))
      (Some "minutes-2024-03.pdf") (Some "") Sample.world0 =
      (Ok (res_status_json 400 (msg "Title is required")), w') /\
    store w' = store Sample.world0 /\
    calls w' = calls Sample.world0 ++ [CallUpload "minutes-2024-03.pdf"].
Proof.
  apply (@board_minute_without_title Sample.env
           (SignedToken (login_token Sample.env Sample.head))
           (session_of Sample.env Sample.head) "minutes-2024-03.pdf"
           "https://res.cloudinary.com/kghs/minutes-2024-03.pdf" (Some "")
           Sample.world0).
  - split; reflexivity.
  - reflexivity.
  - reflexivity.
  - reflexivity.
  - right. reflexivity.
Defined.

(** ** Forum threads *)

Lemma forum_reply_run (env : Env) (req_user : JsObject) (id : string)
      (content : option string) (w : World) (t : ForumThread)
      (author : option ObjectId) :
  faults w = [] ->
  find_thread id (store w) = Some t ->
  cast_oid (get_field "id" req_user) = inr author ->
  let t' := push_reply t (mkReply (fresh_oid env (store w)) content author
                                  (now_ms env)) in
  forum_reply env req_user id content w =
    (Ok (res_json (JObj (thread_json t'))),
     mkWorld (replace_thread t' (store w)) (log w) (calls w) []) /\
  find_thread id (replace_thread t' (store w)) = Some t'.
Proof.
  intros Hf Ht Hc t'.
  destruct (find_thread_some _ _ Ht) as [Hwf Ht'].
  assert (Hid : thread_id t = id).
  { apply find_some in Ht'. now apply String.eqb_eq. }
  assert (Hw : store_answers w) by (unfold store_answers; now rewrite Hf).
  assert (Hw2 : store_answers (after_store_op w (store w)))
    by (unfold store_answers; simpl; now rewrite Hf).
  split.
  - unfold forum_reply, bind, ForumThread_findById, save_with_ref.
    rewrite (cast_path_id_ok _ Hwf), (store_read_answers _ Hw), Ht, Hc,
      (store_op_answers _ Hw2).
    cbn [fst snd]. fold t'. unfold ret, after_store_op.
    cbn [store log calls faults]. now rewrite Hf.
  - unfold find_thread, replace_thread. rewrite Hwf. cbn [threads].
    apply find_replaced_thread with (t := t); [exact Hid|exact Ht'].
Qed.

(** X13: two replies sent one after the other to an existing thread are
    both kept, in the order they were sent, after the replies the thread
    already had. *)
Theorem sequential_replies_keep_order
        (env : Env) (user1 user2 : JsObject) (id : string)
        (content1 content2 : option string) (author1 author2 : option ObjectId)
        (w : World) (t : ForumThread) :
  faults w = [] ->
  find_thread id (store w) = Some t ->
  cast_oid (get_field "id" user1) = inr author1 ->
  cast_oid (get_field "id" user2) = inr author2 ->
  exists r1 w1 r2 w2 t2,
    forum_reply env user1 id content1 w = (Ok r1, w1) /\
    forum_reply env user2 id content2 w1 = (Ok r2, w2) /\
    find_thread id (store w2) = Some t2 /\
    map reply_content (thread_replies t2) =
      map reply_content (thread_replies t) ++ [content1; content2] /\
    map reply_author (thread_replies t2) =
      map reply_author (thread_replies t) ++ [author1; author2].
Proof.
  intros Hf Ht Hc1 Hc2.
  destruct (@forum_reply_run env user1 id content1 w t author1 Hf Ht Hc1)
    as [Hrun1 Hfind1].
  set (t1 := push_reply t (mkReply (fresh_oid env (store w)) content1 author1
                                   (now_ms env))) in *.
  set (w1 := mkWorld (replace_thread t1 (store w)) (log w) (calls w) []) in *.
  destruct (@forum_reply_run env user2 id content2 w1 t1 author2 eq_refl Hfind1 Hc2)
    as [Hrun2 Hfind2].
  eexists _, w1, _, _, _. split; [exact Hrun1|]. split; [exact Hrun2|].
  split; [exact Hfind2|].
  cbn [push_reply thread_replies t1].
  rewrite !map_app, <- !app_assoc. split; reflexivity.
Qed.

Lemma sequential_replies_keep_order_witness :
  exists r1 w1 r2 w2 t2,
    forum_reply Sample.env (session_of Sample.env Sample.ada) "65e000000000000000000b01"
                (Some "I am") SampleForum.world1 = (Ok r1, w1) /\
    forum_reply Sample.env (session_of Sample.env Sample.head) "65e000000000000000000b01"
                (Some "Me too") w1 = (Ok r2, w2) /\
    find_thread "65e000000000000000000b01" (store w2) = Some t2 /\
    map reply_content (thread_replies t2) = [Some "I am"; Some "Me too"] /\
    map reply_author (thread_replies t2) = [Some "65e000000000000000000a01"; Some "65e000000000000000000a00"].
Proof.
  apply (@sequential_replies_keep_order Sample.env
           (session_of Sample.env Sample.ada) (session_of Sample.env Sample.head)
           "65e000000000000000000b01" (Some "I am") (Some "Me too") (Some "65e000000000000000000a01") (Some "65e000000000000000000a00")
           SampleForum.world1 SampleForum.reunion); reflexivity.
Defined.

(** ** Newest first *)

Lemma insert_by_date_perm A (date : A -> Z) (x : A) (l : list A) :
  Permutation (insert_by_date date x l) (x :: l).
Proof.
  induction l as [|y l IH]; simpl; [reflexivity|].
  destruct (date y <? date x); [reflexivity|].
  rewrite IH. apply perm_swap.
Qed.

Lemma sort_newest_first_perm A (date : A -> Z) (l : list A) :
  Permutation (sort_newest_first date l) l.
Proof.
  unfold sort_newest_first.
  induction l as [|x l IH]; simpl; [reflexivity|].
  rewrite insert_by_date_perm. now constructor.
Qed.

Lemma insert_by_date_sorted A (date : A -> Z) (x : A) (l : list A) :
  newest_first date l -> newest_first date (insert_by_date date x l).
Proof.
  unfold newest_first.
  induction l as [|y l IH]; simpl; intros Hs.
  - constructor; constructor.
  - inversion Hs as [|? ? Hl Hy]; subst.
    destruct (date y <? date x) eqn:E.
    + apply Z.ltb_lt in E. constructor; [exact Hs|].
      constructor; [lia|].
      eapply Forall_impl; [|exact Hy]. simpl. intros z Hz. lia.
    + apply Z.ltb_ge in E. constructor; [now apply IH|].
      apply (Permutation_Forall (Permutation_sym (insert_by_date_perm date x l))).
      constructor; [exact E|exact Hy].
Qed.

Lemma sort_newest_first_sorted A (date : A -> Z) (l : list A) :
  newest_first date (sort_newest_first date l).
Proof.
  unfold sort_newest_first.
  induction l as [|x l IH]; simpl; [constructor|].
  now apply insert_by_date_sorted.
Qed.

(** X14: when the store answers, the board-minute listing returns every
    stored minute exactly once, in non-increasing order of date. *)
Theorem board_minutes_newest_first (w : World) :
  store_answers w ->
  exists minutes,
    list_board_minutes w =
      (Ok (res_json (JArr (map (fun m => JObj (minute_json m)) minutes))),
       after_store_op w (store w)) /\
    Permutation minutes (boardMinutes (store w)) /\
    newest_first minute_date minutes.
Proof.
  intros Hw.
  exists (sort_newest_first minute_date (boardMinutes (store w))).
  split; [|split].
  - unfold list_board_minutes, try_catch, list_board_minutes_try, bind.
    now rewrite (store_read_answers _ Hw).
  - apply sort_newest_first_perm.
  - apply sort_newest_first_sorted.
Qed.

Lemma board_minutes_newest_first_witness :
  let agm := mkBoardMinute "m1" "AGM 2022" "https://res.cloudinary.com/kghs/agm22.pdf"
                           1660000000000 in
  let egm := mkBoardMinute "m2" "EGM 2023" "https://res.cloudinary.com/kghs/egm23.pdf"
                           1690000000000 in
  let w := mkWorld (mkStore [] [] [] [] [agm; egm] 2%nat) [] [] [] in
  exists minutes,
    fst (list_board_minutes w) =
      Ok (res_json (JArr (map (fun m => JObj (minute_json m)) minutes))) /\
    Permutation minutes [agm; egm] /\
    newest_first minute_date minutes.
Proof.
  cbv zeta.
  destruct (@board_minutes_newest_first
              (mkWorld (mkStore [] [] [] []
                 [mkBoardMinute "m1" "AGM 2022"
                    "https://res.cloudinary.com/kghs/agm22.pdf" 1660000000000;
                  mkBoardMinute "m2" "EGM 2023"
                    "https://res.cloudinary.com/kghs/egm23.pdf" 1690000000000]
                 2%nat) [] [] []) eq_refl)
    as (minutes & Hrun & Hp & Hs).
  exists minutes. split; [now rewrite Hrun|]. split; assumption.
Defined.





(** ** Payments *)

Lemma accepted_amount (a : Q) :
  Qeq_bool a 0 || Qlt_bool a 1 = false -> (1 <= a)%Q.
Proof.
  intros H. apply orb_false_iff in H. destruct H as [_ H].
  unfold Qlt_bool in H. apply negb_false_iff in H. now apply Qle_bool_iff.
Qed.

Lemma Math_round_scaled (a : Q) : (1 <= a)%Q -> 100 <= Math_round (a * 100).
Proof.
  intros Ha. unfold Math_round.
  change 100 with (Qfloor (inject_Z 100)) at 1.
  apply Qfloor_resp_le.
  change (inject_Z 100) with 100%Q. lra.
Qed.

Lemma valid_currency_cases (env : Env) (u : JsObject) (a : Q) (c : string) :
  init_currency (payment_args env u a c) = "USD" \/
  init_currency (payment_args env u a c) = "NGN".
Proof.
  unfold payment_args. cbn [init_currency].
  destruct (String.eqb (toUpperCase c) "USD"); auto.
Qed.

(** X16: create-payment never touches the store (no Donation exists
    before verification) and makes at most one gateway call; when it
    calls, the amount is at least 100 minor units, the currency is "USD"
    or "NGN", the callback URL is the fixed one and the metadata carries
    the caller's identifier. *)
Theorem create_payment_effects
        (env : Env) (req_user : JsObject) (b : PaymentBody) (w : World) :
  exists o w',
    create_payment env req_user b w = (o, w') /\
    store w' = store w /\
    faults w' = faults w /\
    (calls w' = calls w \/
     exists args,
       calls w' = calls w ++ [CallInitialize args] /\
       100 <= init_amount args /\
       (init_currency args = "USD" \/ init_currency args = "NGN") /\
       init_callback_url args = "http://localhost:5174/donations/success" /\
       get_field "userId" (init_metadata args) = get_field "id" req_user).
Proof.
  unfold create_payment, try_catch, create_payment_try.
  destruct (pay_amount b) as [a|].
  2:{ eexists _, _. split; [reflexivity|]. auto. }
  destruct (Qeq_bool a 0 || Qlt_bool a 1) eqn:Hv.
  { eexists _, _. split; [reflexivity|]. auto. }
  apply accepted_amount in Hv.
  unfold bind, record_call, lift_result.
  set (args := payment_args env req_user a
                 match pay_currency b with Some c => c | None => "NGN" end).
  assert (Hargs : 100 <= init_amount args /\
                  (init_currency args = "USD" \/ init_currency args = "NGN") /\
                  init_callback_url args = "http://localhost:5174/donations/success" /\
                  get_field "userId" (init_metadata args) = get_field "id" req_user).
  { split; [exact (Math_round_scaled Hv)|].
    split; [apply valid_currency_cases|]. split; reflexivity. }
  destruct (paystack_initialize env args) as [e|url]; simpl;
    eexists _, _; (split; [reflexivity|]); simpl;
    (split; [reflexivity|]); (split; [reflexivity|]); right; exists args;
    (split; [reflexivity|exact Hargs]).
Qed.

Lemma verify_payment_run (env : Env) (req_user : JsObject) (reference : string)
      (w : World) (data : VerifyData) (donor : option ObjectId) :
  faults w = [] ->
  paystack_verify env reference = inr data ->
  verify_status data = "success" ->
  cast_oid (get_field "id" req_user) = inr donor ->
  verify_payment env req_user reference w =
    (Ok donation_successful,
     mkWorld (insert_donation (new_donation env data donor (store w)) (store w))
             (log w) (calls w ++ [CallVerify reference]) []).
Proof.
  intros Hf Hv Hs Hc.
  unfold verify_payment, try_catch, verify_payment_try, bind, record_call,
    lift_result, save_with_ref.
  simpl. rewrite Hv. simpl. rewrite Hs. simpl. rewrite Hc.
  unfold store_op. simpl. rewrite Hf. reflexivity.
Qed.

(** X17: verification keeps no record of the references it has seen:
    verifying the same successful reference twice stores two Donation
    records with the same amount and donor. *)
Theorem verify_payment_twice_records_twice
        (env : Env) (req_user : JsObject) (reference : string) (w : World)
        (data : VerifyData) (donor : option ObjectId) :
  faults w = [] ->
  paystack_verify env reference = inr data ->
  verify_status data = "success" ->
  cast_oid (get_field "id" req_user) = inr donor ->
  exists w1 w2 d1 d2,
    verify_payment env req_user reference w = (Ok donation_successful, w1) /\
    verify_payment env req_user reference w1 = (Ok donation_successful, w2) /\
    donations (store w2) = donations (store w) ++ [d1; d2] /\
    donation_amount d1 = donation_amount d2 /\
    donation_donor d1 = donor /\
    donation_donor d2 = donor.
Proof.
  intros Hf Hv Hs Hc.
  pose proof (@verify_payment_run env req_user reference w data donor Hf Hv Hs Hc)
    as Hrun1.
  set (w1 := mkWorld (insert_donation (new_donation env data donor (store w))
                                      (store w))
                     (log w) (calls w ++ [CallVerify reference]) []) in *.
  pose proof (@verify_payment_run env req_user reference w1 data donor eq_refl
                Hv Hs Hc) as Hrun2.
  eexists w1, _, _, _. split; [exact Hrun1|]. split; [exact Hrun2|].
  cbn [store w1 insert_donation donations]. rewrite <- app_assoc.
  repeat split.
Qed.

Lemma verify_payment_twice_records_twice_witness :
  exists w1 w2 d1 d2,
    verify_payment Sample.env (session_of Sample.env Sample.ada) "kghs-don-1-abc"
                   Sample.world0 = (Ok donation_successful, w1) /\
    verify_payment Sample.env (session_of Sample.env Sample.ada) "kghs-don-1-abc"
                   w1 = (Ok donation_successful, w2) /\
    donations (store w2) = [d1; d2] /\
    donation_amount d1 = donation_amount d2.
Proof.
  destruct (@verify_payment_twice_records_twice Sample.env
              (session_of Sample.env Sample.ada) "kghs-don-1-abc" Sample.world0
              (mkVerifyData "success" 500000) (Some "65e000000000000000000a01")
              eq_refl eq_refl eq_refl eq_refl)
    as (w1 & w2 & d1 & d2 & H1 & H2 & Hd & Ha & _).
  exists w1, w2, d1, d2. repeat split; assumption.
Defined.

(** ** The directory, further *)

Lemma empty_param (p : option string) :
  p = None \/ p = Some "" -> truthy_param p = None.
Proof. intros [->| ->]; reflexivity. Qed.

(** X19: a directory request whose filters are absent or empty strings
    is not filtered: it returns every approved user, in store order. *)
Theorem directory_without_filters (env : Env) (q : DirectoryQuery) (w : World) :
  store_answers w ->
  query_year q = None \/ query_year q = Some "" ->
  query_location q = None \/ query_location q = Some "" ->
  directory env q w =
    (Ok (res_json (JArr (map directory_record
                             (filter user_isApproved (users (store w)))))),
     after_store_op w (store w)).
Proof.
  intros Hw Hy Hl.
  unfold directory, bind, User_find_directory, cast_year, compile_location,
    directory_filter.
  cbn [filter_graduationYear filter_location].
  rewrite (empty_param Hy), (empty_param Hl), (store_op_answers _ Hw).
  cbn [fst snd]. unfold ret. do 5 f_equal.
  apply filter_ext. intros u. unfold directory_selects. simpl.
  now rewrite !andb_true_r.
Qed.

Lemma directory_without_filters_witness :
  directory Sample.env (mkDirectoryQuery (Some "") None) Sample.world0 =
    (Ok (res_json (JArr [directory_record Sample.head; directory_record Sample.ada])),
     Sample.world0).
Proof.
  apply (@directory_without_filters Sample.env (mkDirectoryQuery (Some "") None)
           Sample.world0).
  - reflexivity.
  - right. reflexivity.
  - left. reflexivity.
Defined.

(** X20: with a location filter that has no regular-expression operator
    in it (and no year filter), every approved user whose location
    contains the filter, letter case ignored, is in the listing. *)
Theorem directory_finds_by_location
        (env : Env) (p : string) (w : World) (u : User) (l : string) :
  store_answers w ->
  p <> "" ->
  plain_pattern p = true ->
  In u (users (store w)) ->
  user_isApproved u = true ->
  user_location u = Some l ->
  contains_ci p l ->
  exists records,
    directory env (mkDirectoryQuery None (Some p)) w =
      (Ok (res_json (JArr records)), after_store_op w (store w)) /\
    In (directory_record u) records.
Proof.
  intros Hw Hp Hplain Hin Ha Hl Hc.
  unfold directory, bind, User_find_directory, cast_year, compile_location,
    directory_filter.
  cbn [filter_graduationYear filter_location query_year query_location
       truthy_param].
  rewrite (str_truthy_nonempty Hp). unfold regex_i.
  rewrite (compile_plain _ Hplain), (store_op_answers _ Hw).
  cbn [fst snd]. eexists. split; [reflexivity|].
  apply in_map, filter_In. split; [exact Hin|].
  unfold directory_selects. rewrite Ha. simpl. rewrite Hl.
  now apply search_contains_ci.
Qed.

Lemma directory_finds_by_location_witness :
  exists records,
    directory Sample.env (mkDirectoryQuery None (Some "AGO")) Sample.world0 =
      (Ok (res_json (JArr records)), Sample.world0) /\
    In (directory_record Sample.ada) records.
Proof.
  apply (@directory_finds_by_location Sample.env "AGO" Sample.world0 Sample.ada
           "Lagos"); try reflexivity.
  - discriminate.
  - simpl. auto.
  - exists "l"%string, "s"%string. reflexivity.
Defined.

(** X21: the directory handler has no [catch]: a year parameter that
    does not cast to a number makes it throw before the store is asked,
    so the request gets no response from the handler. *)
Theorem directory_year_not_a_number
        (env : Env) (q : DirectoryQuery) (y : string) (w : World) :
  query_year q = Some y ->
  y <> "" ->
  castNumber env y = None ->
  directory env q w = (Throw (CastError "Cast to Number failed"), w).
Proof.
  intros Hq Hy Hc.
  unfold directory, bind, User_find_directory, cast_year, directory_filter.
  cbn [filter_graduationYear].
  now rewrite (truthy_param_some Hq Hy), Hc.
Qed.

Lemma directory_year_not_a_number_witness :
  directory Sample.env (mkDirectoryQuery (Some "ninety-nine") None) Sample.world0 =
    (Throw (CastError "Cast to Number failed"), Sample.world0).
Proof.
  apply (@directory_year_not_a_number Sample.env
           (mkDirectoryQuery (Some "ninety-nine") None) "ninety-nine"
           Sample.world0); [reflexivity|discriminate|reflexivity].
Defined.

(** ** The caller's profile *)

(** X22: with the token login issued, GET /api/profile returns the
    caller's own record (same identifier and email) without the
    password; when the user record no longer exists the answer is still
    200, with body [null]. *)
Theorem profile_of_session (env : Env) (u : User) (w : World) :
  store_answers w ->
  (forall stored,
      find_user (user_id u) (store w) = Some stored ->
      exists fields,
        route_get_profile env (SignedToken (login_token env u)) w =
          (Ok (res_json (JObj fields)), after_store_op w (store w)) /\
        get_field "_id" fields = JStr (user_id u) /\
        get_field "email" fields = JStr (user_email stored) /\
        has_field "password" fields = false) /\
  (find_user (user_id u) (store w) = None ->
   route_get_profile env (SignedToken (login_token env u)) w =
     (Ok (res_json JNull), after_store_op w (store w))).
Proof.
  intros Hw.
  unfold route_get_profile. rewrite fresh_token_accepted.
  unfold get_profile, bind, User_findById. cbn [session_of get_field String.eqb
    Ascii.eqb Bool.eqb cast_oid].
  rewrite (store_read_answers _ Hw). split.
  - intros stored Hs. rewrite Hs. eexists. split; [reflexivity|].
    assert (Hid : user_id stored = user_id u).
    { destruct (find_user_some _ _ Hs) as [_ Hs'].
      apply find_some in Hs'. now apply String.eqb_eq. }
    split; [|split].
    + cbn. now rewrite Hid.
    + reflexivity.
    + apply has_field_drop_fields. simpl. auto.
  - intros Hn. now rewrite Hn.
Qed.

Lemma profile_of_session_witness :
  exists fields,
    route_get_profile Sample.env (SignedToken (login_token Sample.env Sample.ada))
                      Sample.world0 =
      (Ok (res_json (JObj fields)), Sample.world0) /\
    get_field "email" fields = JStr "ada@kghs.com" /\
    has_field "password" fields = false.
Proof.
  destruct (@profile_of_session Sample.env Sample.ada Sample.world0 eq_refl)
    as [Hfound _].
  destruct (Hfound Sample.ada eq_refl) as (fields & Hrun & _ & He & Hp).
  exists fields. repeat split; assumption.
Defined.

(** ** Publishing and failing *)

(** X23: an admin's board-minute request with a file and a non-empty
    title uploads the file once and stores one BoardMinute whose title
    is the body's and whose [fileUrl] is the URL the upload sink
    returned; the answer is 200 with that record. *)
Theorem admin_publishes_board_minute
        (env : Env) (h : AuthHeader) (req_user : JsObject)
        (file path title : string) (w : World) :
  authenticates env h req_user ->
  is_admin req_user (store w) = true ->
  faults w = [] ->
  cloudinary_upload env file = inr path ->
  path <> "" ->
  title <> "" ->
  exists m w',
    route_post_board_minute env h (Some file) (Some title) w =
      (Ok (res_json (JObj (minute_json m))), w') /\
    boardMinutes (store w') = boardMinutes (store w) ++ [m] /\
    minute_title m = title /\
    minute_fileUrl m = path /\
    minute_date m = now_ms env /\
    calls w' = calls w ++ [CallUpload file].
Proof.
  intros Hauth Hadm Hf Hup Hp Ht.
  assert (Hw : store_answers w) by (unfold store_answers; now rewrite Hf).
  unfold route_post_board_minute. rewrite (authMiddleware_next _ Hauth).
  rewrite (@adminMiddleware_pass _ _ _ Hw Hadm).
  unfold upload_single, bind, record_call, lift_result. cbn. rewrite Hup.
  unfold post_board_minute, try_catch, post_board_minute_try, bind.
  cbn [truthy_param]. rewrite (str_truthy_nonempty Ht).
  unfold store_op, ret. cbn [faults store log calls tl]. rewrite Hf.
  cbn [minute_fileUrl tl]. rewrite (str_truthy_nonempty Hp). cbn [negb].
  eexists _, _. split; [reflexivity|]. repeat split.
Qed.

Lemma admin_publishes_board_minute_witness :
  exists m w',
    route_post_board_minute Sample.env
      (SignedToken (login_token Sample.env Sample.head))
      (Some "agm.pdf") (Some "AGM 2024") Sample.world0 =
      (Ok (res_json (JObj (minute_json m))), w') /\
    boardMinutes (store w') = [m] /\
    minute_fileUrl m = "https://res.cloudinary.com/kghs/agm.pdf".
Proof.
  destruct (@admin_publishes_board_minute Sample.env
              (SignedToken (login_token Sample.env Sample.head))
              (session_of Sample.env Sample.head) "agm.pdf"
              "https://res.cloudinary.com/kghs/agm.pdf" "AGM 2024" Sample.world0)
    as (m & w' & Hrun & Hm & _ & Hu & _).
  - split; reflexivity.
  - reflexivity.
  - reflexivity.
  - reflexivity.
  - discriminate.
  - discriminate.
  - exists m, w'. repeat split; assumption.
Defined.

Lemma error_message_nonempty (e : JsError) : error_message e <> "".
Proof.
  unfold error_message, str_truthy.
  destruct (err_response_data e) as [[[m|]]|];
    repeat match goal with
      | |- context [String.eqb ?s ""] =>
          let E := fresh "E" in
          destruct (String.eqb s "") eqn:E; cbn [negb];
          [|apply String.eqb_neq in E; try exact E]
      end; try discriminate.
Qed.

(** X24: when the gateway refuses an accepted amount, create-payment
    answers 500 with [details] never empty: the gateway response's
    message when it has a non-empty one, else the error's own message,
    else 'Unknown error'; the store is not touched. *)
Theorem payment_failure_details
        (env : Env) (req_user : JsObject) (a : Q) (c : option string)
        (w : World) (e : JsError) :
  (1 <= a)%Q ->
  paystack_initialize env
    (payment_args env req_user a (match c with Some c => c | None => "NGN" end))
    = inl e ->
  exists details w',
    create_payment env req_user (mkPaymentBody (Some a) c) w =
      (Ok (res_status_json 500
             (JObj [("msg", JStr "Payment initialization failed");
                    ("details", JStr details)])), w') /\
    details <> "" /\
    (forall m, err_response_data e = Some (mkRespData (Some m)) -> m <> "" ->
               details = m) /\
    (err_response_data e = None -> err_message e <> "" ->
     details = err_message e) /\
    (err_response_data e = None -> err_message e = "" ->
     details = "Unknown error") /\
    store w' = store w.
Proof.
  intros Ha He.
  exists (error_message e). eexists. split.
  - unfold create_payment, try_catch.
    rewrite (@create_payment_try_gateway_failure env req_user a c w e Ha He).
    reflexivity.
  - split; [apply error_message_nonempty|].
    unfold error_message. repeat split.
    + intros m Hm Hne. rewrite Hm. now rewrite (str_truthy_nonempty Hne).
    + intros Hn Hne. rewrite Hn. now rewrite (str_truthy_nonempty Hne).
    + intros Hn Hm. rewrite Hn, Hm. reflexivity.
Qed.

Lemma payment_failure_details_witness :
  exists w',
    create_payment
      (Sample.env_with Sample.gateway_refuses (Sample.verify_as "success")
                       Sample.mail_up)
      (session_of Sample.env Sample.ada) (mkPaymentBody (Some 20%Q) (Some "usd"))
      Sample.world0 =
      (Ok (res_status_json 500
             (JObj [("msg", JStr "Payment initialization failed");
                    ("details", JStr "Invalid key")])), w') /\
    store w' = Sample.store0.
Proof.
  destruct (@payment_failure_details
              (Sample.env_with Sample.gateway_refuses (Sample.verify_as "success")
                               Sample.mail_up)
              (session_of Sample.env Sample.ada) 20%Q (Some "usd") Sample.world0
              (mkJsError "StatusCodeError" "401 - Unauthorized"
                         (Some (mkRespData (Some "Invalid key")))))
    as (details & w' & Hrun & _ & Hm & _ & _ & Hs).
  - discriminate.
  - reflexivity.
  - exists w'. split; [|exact Hs].
    rewrite <- (Hm "Invalid key" eq_refl); [exact Hrun|discriminate].
Defined.
